(** * Travis County building extractor: model and properties

    A shallow embedding of [scripts/extract_travis_buildings.py].

    - Text is a [string]; a character is a code point below 256.
    - A decoded JSON document is a [json] tree.  Python's [int] and [float]
      are both read as exact rationals ([Q]): the arithmetic mean of the
      source is the exact mean, rounding of binary floats is left out.
      The filter is also given over any arithmetic ([Generic]); what is
      said about the comparison with the bounds is proved there.
    - The operations Python applies to a decoded value ([in], subscripts,
      iteration, [sum], truthiness) are written out per value shape, with
      the exception each one raises, in a small error monad.
    - The input file is the list of its lines as [readline] returns them;
      reading is taken not to fail (the file exists and is valid UTF-8).
    - [json.loads] is a parameter of the extractor: a text decodes to a
      value or raises [JSONDecodeError].  A run that ends in the outer
      [except Exception] (another exception of the decoder) or that cannot
      write its output is not modelled; statements that a document is
      written are about runs without these.
    - What the script prints inside the loop is kept as a list of events;
      writing the output file is the document handed to [json.dump]. *)

From Stdlib Require Import String Ascii List Bool Arith ZArith QArith Lia.
From Stdlib Require PrimFloat Uint63.
Import ListNotations.

Set Warnings "-register-all".
Local Open Scope string_scope.
Local Open Scope list_scope.

(** ** Python string methods used by the script *)

Module Str.

(** The double-quote character, code 34. *)
Definition dquote : ascii :=
  Ascii false true false false false true false false.

(** [str.isspace] on one character (code points below 256). *)
Definition isspace (c : ascii) : bool :=
  let n := nat_of_ascii c in
  ((9 <=? n) && (n <=? 13) || (28 <=? n) && (n <=? 32)
   || (n =? 133) || (n =? 160))%nat.

Fixpoint lstrip (s : string) : string :=
  match s with
  | EmptyString => EmptyString
  | String c s' => if isspace c then lstrip s' else s
  end.

Fixpoint rstrip (s : string) : string :=
  match s with
  | EmptyString => EmptyString
  | String c s' =>
      match rstrip s' with
      | EmptyString => if isspace c then EmptyString else String c EmptyString
      | r => String c r
      end
  end.

(** [s.strip()] *)
Definition strip (s : string) : string := rstrip (lstrip s).

(** [s.startswith(p)] *)
Definition startswith (p s : string) : bool := String.prefix p s.

(** [sub in s] *)
Fixpoint contains (sub s : string) : bool :=
  String.prefix sub s
  || match s with
     | EmptyString => false
     | String _ s' => contains sub s'
     end.

(** [s.count(c)] for a one-character [c]. *)
Fixpoint count (c : ascii) (s : string) : Z :=
  match s with
  | EmptyString => 0
  | String a s' => ((if Ascii.eqb a c then 1 else 0) + count c s')%Z
  end.

(** [s.endswith(c)] for a one-character [c]. *)
Fixpoint endswith (c : ascii) (s : string) : bool :=
  match s with
  | EmptyString => false
  | String a EmptyString => Ascii.eqb a c
  | String _ s' => endswith c s'
  end.

(** [s[:-1]] *)
Fixpoint drop_last (s : string) : string :=
  match s with
  | EmptyString => EmptyString
  | String _ EmptyString => EmptyString
  | String a s' => String a (drop_last s')
  end.

(** Truth value of a string: non-empty. *)
Definition nonempty (s : string) : bool :=
  match s with EmptyString => false | String _ _ => true end.

(** Writes a text with ['] where the file has a double quote. *)
Fixpoint py (s : string) : string :=
  match s with
  | EmptyString => EmptyString
  | String c s' => String (if Ascii.eqb c "'"%char then dquote else c) (py s')
  end.

End Str.

(** ** Decoded JSON values and the exceptions of the Python operations *)

Inductive json : Type :=
| JNull
| JBool (b : bool)
| JNum (q : Q)
| JStr (s : string)
| JArray (xs : list json)
| JObject (kvs : list (string * json)).

Inductive exn : Type := KeyError | TypeError | IndexError.

Inductive result (A : Type) : Type :=
| Ok (a : A)
| Raise (e : exn).
Arguments Ok {A} a.
Arguments Raise {A} e.

Definition bind {A B : Type} (m : result A) (k : A -> result B) : result B :=
  match m with
  | Ok a => k a
  | Raise e => Raise e
  end.

Notation "x <- m ;; k" := (bind m (fun x => k))
  (at level 61, m at next level, right associativity).

Module Py.

(** [v == s] for a string literal [s]. *)
Definition eq_str (v : json) (s : string) : bool :=
  match v with
  | JStr t => String.eqb t s
  | _ => false
  end.

(** Dictionary lookup; a decoded dictionary has each key once. *)
Fixpoint lookup (key : string) (kvs : list (string * json)) : option json :=
  match kvs with
  | [] => None
  | (k, v) :: rest => if String.eqb k key then Some v else lookup key rest
  end.

(** [key in v] *)
Definition contains (key : string) (v : json) : result bool :=
  match v with
  | JObject kvs =>
      Ok (match lookup key kvs with Some _ => true | None => false end)
  | JArray xs => Ok (existsb (fun x => eq_str x key) xs)
  | JStr s => Ok (Str.contains key s)
  | JNull | JBool _ | JNum _ => Raise TypeError
  end.

(** [v[key]] for a string [key] *)
Definition getitem (v : json) (key : string) : result json :=
  match v with
  | JObject kvs =>
      match lookup key kvs with
      | Some x => Ok x
      | None => Raise KeyError
      end
  | _ => Raise TypeError
  end.

(** [v[i]] for a non-negative integer [i] *)
Definition index (v : json) (i : nat) : result json :=
  match v with
  | JArray xs =>
      match nth_error xs i with
      | Some x => Ok x
      | None => Raise IndexError
      end
  | JStr s =>
      match String.get i s with
      | Some c => Ok (JStr (String c EmptyString))
      | None => Raise IndexError
      end
  | JObject _ => Raise KeyError
  | JNull | JBool _ | JNum _ => Raise TypeError
  end.

(** The items [for x in v] runs over. *)
Definition iter (v : json) : result (list json) :=
  match v with
  | JArray xs => Ok xs
  | JStr s =>
      Ok (map (fun c => JStr (String c EmptyString)) (list_ascii_of_string s))
  | JObject kvs => Ok (map (fun kv => JStr (fst kv)) kvs)
  | JNull | JBool _ | JNum _ => Raise TypeError
  end.

(** [len(v)] *)
Definition len (v : json) : result nat :=
  match v with
  | JArray xs => Ok (List.length xs)
  | JStr s => Ok (String.length s)
  | JObject kvs => Ok (List.length kvs)
  | JNull | JBool _ | JNum _ => Raise TypeError
  end.

(** Truth value, as [not v] tests it. *)
Definition truthy (v : json) : bool :=
  match v with
  | JNull => false
  | JBool b => b
  | JNum q => negb (Qeq_bool q 0)
  | JStr s => Str.nonempty s
  | JArray xs => match xs with [] => false | _ => true end
  | JObject kvs => match kvs with [] => false | _ => true end
  end.

(** [acc + v] with a number on the left. *)
Definition add (acc : Q) (v : json) : result Q :=
  match v with
  | JNum q => Ok (acc + q)%Q
  | JBool b => Ok (acc + (if b then 1 else 0))%Q
  | JNull | JStr _ | JArray _ | JObject _ => Raise TypeError
  end.

(** [sum(coord[i] for coord in coords)], from the running total [acc]. *)
Fixpoint sum_at (i : nat) (coords : list json) (acc : Q) : result Q :=
  match coords with
  | [] => Ok acc
  | coord :: rest =>
      x <- index coord i ;;
      acc' <- add acc x ;;
      sum_at i rest acc'
  end.

End Py.

(** ** The geometry filter *)

Record bounds : Type := mkBounds {
  north : Q;
  south : Q;
  east : Q;
  west : Q
}.

Definition TRAVIS_BOUNDS : bounds :=
  {| north := 308 # 10;
     south := 300 # 10;
     east := - (974 # 10);
     west := - (982 # 10) |}.

(** The loop of the MultiPolygon branch:
    [for polygon in ...: coordinates.extend(polygon[0])]. *)
Fixpoint extend_outer_rings (polygons : list json) (coordinates : list json)
  : result (list json) :=
  match polygons with
  | [] => Ok coordinates
  | polygon :: rest =>
      ring <- Py.index polygon 0 ;;
      pts <- Py.iter ring ;;
      extend_outer_rings rest (coordinates ++ pts)
  end.

(** The coordinates chosen by geometry type; [None] is the final [else]. *)
Definition select_coordinates (geometry : json) : result (option json) :=
  ty <- Py.getitem geometry "type" ;;
  if Py.eq_str ty "Polygon" then
    c <- Py.getitem geometry "coordinates" ;;
    ring <- Py.index c 0 ;;
    Ok (Some ring)
  else
    ty' <- Py.getitem geometry "type" ;;
    if Py.eq_str ty' "MultiPolygon" then
      c <- Py.getitem geometry "coordinates" ;;
      polygons <- Py.iter c ;;
      pts <- extend_outer_rings polygons [] ;;
      Ok (Some (JArray pts))
    else Ok None.

(** [a <= x <= b] *)
Definition between (a x b : Q) : bool := Qle_bool a x && Qle_bool x b.

(** The centre test at the end of the [try] block. *)
Definition center_in_bounds (coordinates : json) : result bool :=
  if negb (Py.truthy coordinates) then Ok false
  else
    pts <- Py.iter coordinates ;;
    sum_lng <- Py.sum_at 0 pts 0 ;;
    n <- Py.len coordinates ;;
    let center_lng := (sum_lng / inject_Z (Z.of_nat n))%Q in
    pts' <- Py.iter coordinates ;;
    sum_lat <- Py.sum_at 1 pts' 0 ;;
    n' <- Py.len coordinates ;;
    let center_lat := (sum_lat / inject_Z (Z.of_nat n'))%Q in
    Ok (between (south TRAVIS_BOUNDS) center_lat (north TRAVIS_BOUNDS)
        && between (west TRAVIS_BOUNDS) center_lng (east TRAVIS_BOUNDS)).

(** The body of the [try] block of [is_in_travis_county]. *)
Definition is_in_travis_county_try (feature : json) : result bool :=
  has_geometry <- Py.contains "geometry" feature ;;
  if negb has_geometry then Ok false
  else
    g <- Py.getitem feature "geometry" ;;
    has_coordinates <- Py.contains "coordinates" g ;;
    if negb has_coordinates then Ok false
    else
      geometry <- Py.getitem feature "geometry" ;;
      sel <- select_coordinates geometry ;;
      match sel with
      | None => Ok false
      | Some coordinates => center_in_bounds coordinates
      end.

(** [is_in_travis_county]: any exception of the body is caught and the
    answer is [False]. *)
Definition is_in_travis_county (feature : json) : bool :=
  match is_in_travis_county_try feature with
  | Ok b => b
  | Raise _ => false
  end.

(** The line [is_in_travis_county] prints when its body raises. *)
Inductive event : Type :=
| PrintBoundsError (e : exn)
| PrintParseError (buffer : string)
| PrintFound (n : Z)
| PrintReachedMax (m : Z).

Definition bounds_diagnostic (feature : json) : list event :=
  match is_in_travis_county_try feature with
  | Ok _ => []
  | Raise e => [PrintBoundsError e]
  end.

(** ** The streaming extractor *)

(** The local variables of the scanning loop, and what it has printed
    (oldest first). *)
Record scan_state : Type := mkScan {
  in_features : bool;
  feature_buffer : string;
  brace_count : Z;
  travis_buildings : list json;
  total_features : Z;
  found_count : Z;
  printed : list event
}.

Definition initial_state : scan_state :=
  {| in_features := false;
     feature_buffer := EmptyString;
     brace_count := 0;
     travis_buildings := [];
     total_features := 0;
     found_count := 0;
     printed := [] |}.

(** How one pass through the loop body ends: on to the next line
    (fall-through or [continue]), or [break]. *)
Inductive step_result : Type :=
| Next (st : scan_state)
| Break (st : scan_state).

Definition state_of (r : step_result) : scan_state :=
  match r with Next st | Break st => st end.

Definition features_key : string := Str.py "'features'".
Definition collection_tag : string := Str.py "{'type':'FeatureCollection'".

(** [line.count('{') - line.count('}')] *)
Definition brace_delta (line : string) : Z :=
  (Str.count "{" line - Str.count "}" line)%Z.

Definition set_in_features (st : scan_state) : scan_state :=
  {| in_features := true;
     feature_buffer := feature_buffer st;
     brace_count := brace_count st;
     travis_buildings := travis_buildings st;
     total_features := total_features st;
     found_count := found_count st;
     printed := printed st |}.

Definition set_buffer (st : scan_state) (buffer : string) (count : Z)
  : scan_state :=
  {| in_features := in_features st;
     feature_buffer := buffer;
     brace_count := count;
     travis_buildings := travis_buildings st;
     total_features := total_features st;
     found_count := found_count st;
     printed := printed st |}.

(** [if buffer.endswith(','): buffer = buffer[:-1]] *)
Definition strip_trailing_comma (buffer : string) : string :=
  if Str.endswith "," buffer then Str.drop_last buffer else buffer.

(** The [elif line.startswith('{')] / [else] pair: a line that opens with a
    brace starts the buffer afresh, any other line is appended to it. *)
Definition assemble (st : scan_state) (line : string) : scan_state :=
  if Str.startswith "{" line then set_buffer st line (brace_delta line)
  else
    set_buffer st (feature_buffer st ++ line)
      (brace_count st + brace_delta line).

Section Extractor.

(** [json.loads]; [None] stands for [json.JSONDecodeError]. *)
Variable json_loads : string -> option json.
Variable max_buildings : Z.

(** The block under [# Complete feature found], entered with a non-empty
    buffer and a brace count of zero. *)
Definition complete_feature (st : scan_state) : step_result :=
  let buffer := strip_trailing_comma (feature_buffer st) in
  match json_loads buffer with
  | None =>
      Next {| in_features := in_features st;
              feature_buffer := buffer;
              brace_count := brace_count st;
              travis_buildings := travis_buildings st;
              total_features := total_features st;
              found_count := found_count st;
              printed := printed st ++ [PrintParseError buffer] |}
  | Some feature =>
      let total := (total_features st + 1)%Z in
      let log := printed st ++ bounds_diagnostic feature in
      if is_in_travis_county feature then
        let found := (found_count st + 1)%Z in
        let log1 :=
          if (found mod 100 =? 0)%Z then log ++ [PrintFound found]
          else log in
        if (found >=? max_buildings)%Z then
          Break {| in_features := in_features st;
                   feature_buffer := buffer;
                   brace_count := brace_count st;
                   travis_buildings := travis_buildings st ++ [feature];
                   total_features := total;
                   found_count := found;
                   printed := log1 ++ [PrintReachedMax max_buildings] |}
        else
          Next {| in_features := in_features st;
                  feature_buffer := EmptyString;
                  brace_count := brace_count st;
                  travis_buildings := travis_buildings st ++ [feature];
                  total_features := total;
                  found_count := found;
                  printed := log1 |}
      else
        Next {| in_features := in_features st;
                feature_buffer := EmptyString;
                brace_count := brace_count st;
                travis_buildings := travis_buildings st;
                total_features := total;
                found_count := found_count st;
                printed := log |}
  end.

(** [if brace_count == 0 and feature_buffer: ...] *)
Definition check_complete (st : scan_state) : step_result :=
  if (brace_count st =? 0)%Z && Str.nonempty (feature_buffer st)
  then complete_feature st
  else Next st.

(** One pass through the body of [for line in f]. *)
Definition step (st : scan_state) (raw : string) : step_result :=
  let line := Str.strip raw in
  if Str.contains features_key line then Next (set_in_features st)
  else if negb (in_features st) then Next st
  else if Str.startswith "[" line then Next st
  else if Str.startswith "]" line then Break st
  else check_complete (assemble st line).

(** [for line in f]: the final state and the lines left unread. *)
Fixpoint scan (st : scan_state) (f : list string)
  : scan_state * list string :=
  match f with
  | [] => (st, [])
  | raw :: rest =>
      match step st raw with
      | Next st' => scan st' rest
      | Break st' => (st', rest)
      end
  end.

(** [f.readline()]: the empty string at the end of the file. *)
Definition readline (f : list string) : string * list string :=
  match f with
  | [] => (EmptyString, [])
  | l :: rest => (l, rest)
  end.

(** [while line and '"features"' not in line: line = f.readline()] *)
Fixpoint seek_features (line : string) (f : list string)
  : string * list string :=
  if Str.nonempty line && negb (Str.contains features_key line) then
    match f with
    | [] => (EmptyString, [])
    | l :: rest => seek_features l rest
    end
  else (line, f).

Inductive run_status : Type :=
| NotFeatureCollection  (* "File doesn't appear to be a valid GeoJSON ..." *)
| NoFeaturesArray       (* "Could not find features array" *)
| NoBuildings           (* "No Travis County buildings found ..." *)
| Saved.                (* the output file is written *)

(** What a run leaves behind: how it ended, the loop variables, the
    lines never read, and the document written to the output file. *)
Record run : Type := mkRun {
  status : run_status;
  final : scan_state;
  unread : list string;
  output_file : option json
}.

Definition output_geojson (st : scan_state) : json :=
  JObject [("type", JStr "FeatureCollection");
           ("features", JArray (travis_buildings st))].

Definition process_texas_geojson (f : list string) : run :=
  let (line, f1) := readline f in
  if negb (Str.startswith collection_tag (Str.strip line)) then
    mkRun NotFeatureCollection initial_state f1 None
  else
    let (line', f2) := seek_features line f1 in
    if negb (Str.nonempty line') then
      mkRun NoFeaturesArray initial_state f2 None
    else
      let (st, f3) := scan initial_state f2 in
      if (found_count st =? 0)%Z then mkRun NoBuildings st f3 None
      else mkRun Saved st f3 (Some (output_geojson st)).

End Extractor.

(** ** A reference decoder

    The properties of the extractor hold for any decoder.  The examples run
    it with this one: a recursive-descent reader of JSON texts (objects,
    arrays, strings with the one-letter escapes, numbers, [true], [false],
    [null]).  A repeated key keeps its first position and its last value, as
    a Python dictionary does.  Unicode escapes and the non-standard
    literals [NaN] and [Infinity] are not read. *)

Module RefJson.

Definition is_ws (c : ascii) : bool :=
  let n := nat_of_ascii c in
  ((n =? 32) || (n =? 9) || (n =? 10) || (n =? 13))%nat.

Fixpoint skip_ws (s : string) : string :=
  match s with
  | EmptyString => EmptyString
  | String c s' => if is_ws c then skip_ws s' else s
  end.

Definition unescape (c : ascii) : option ascii :=
  if Ascii.eqb c Str.dquote then Some Str.dquote
  else if Ascii.eqb c "\" then Some "\"%char
  else if Ascii.eqb c "/" then Some "/"%char
  else if Ascii.eqb c "b" then Some (ascii_of_nat 8)
  else if Ascii.eqb c "f" then Some (ascii_of_nat 12)
  else if Ascii.eqb c "n" then Some (ascii_of_nat 10)
  else if Ascii.eqb c "r" then Some (ascii_of_nat 13)
  else if Ascii.eqb c "t" then Some (ascii_of_nat 9)
  else None.

(** Reads a string body up to its closing quote. *)
Fixpoint read_string (s : string) : option (string * string) :=
  match s with
  | EmptyString => None
  | String c s' =>
      if Ascii.eqb c Str.dquote then Some (EmptyString, s')
      else if Ascii.eqb c "\" then
        match s' with
        | EmptyString => None
        | String e s'' =>
            match unescape e, read_string s'' with
            | Some x, Some (str, rest) => Some (String x str, rest)
            | _, _ => None
            end
        end
      else if (nat_of_ascii c <? 32)%nat then None
      else
        match read_string s' with
        | Some (str, rest) => Some (String c str, rest)
        | None => None
        end
  end.

Definition digit (c : ascii) : option Z :=
  let n := nat_of_ascii c in
  if ((48 <=? n) && (n <=? 57))%nat then Some (Z.of_nat (n - 48)) else None.

(** Reads a run of digits: its value after [acc], its length, the rest. *)
Fixpoint read_digits (s : string) (acc : Z) (k : nat) : Z * nat * string :=
  match s with
  | EmptyString => (acc, k, s)
  | String c s' =>
      match digit c with
      | Some d => read_digits s' (10 * acc + d)%Z (S k)
      | None => (acc, k, s)
      end
  end.

(** The integer part: a lone zero, or digits not starting with zero. *)
Definition read_int (s : string) : option (Z * string) :=
  match s with
  | String c s' =>
      if Ascii.eqb c "0" then Some (0%Z, s')
      else
        match read_digits s 0 0 with
        | (_, O, _) => None
        | (v, _, rest) => Some (v, rest)
        end
  | EmptyString => None
  end.

(** The fraction, when a point and a digit follow. *)
Definition read_frac (s : string) : Z * nat * string :=
  match s with
  | String c s' =>
      if Ascii.eqb c "." then
        match read_digits s' 0 0 with
        | (_, O, _) => (0%Z, O, s)
        | r => r
        end
      else (0%Z, O, s)
  | EmptyString => (0%Z, O, s)
  end.

(** The exponent, when [e] or [E], an optional sign and a digit follow. *)
Definition read_exp (s : string) : Z * string :=
  match s with
  | String c s' =>
      if Ascii.eqb c "e" || Ascii.eqb c "E" then
        let (neg, s1) :=
          match s' with
          | String d s'' =>
              if Ascii.eqb d "-" then (true, s'')
              else if Ascii.eqb d "+" then (false, s'')
              else (false, s')
          | EmptyString => (false, s')
          end in
        match read_digits s1 0 0 with
        | (_, O, _) => (0%Z, s)
        | (v, _, rest) => ((if neg then - v else v)%Z, rest)
        end
      else (0%Z, s)
  | EmptyString => (0%Z, s)
  end.

Definition pow10 (n : Z) : positive := Z.to_pos (10 ^ n).

Definition read_number (s : string) : option (Q * string) :=
  let (neg, s0) :=
    match s with
    | String c s' => if Ascii.eqb c "-" then (true, s') else (false, s)
    | EmptyString => (false, s)
    end in
  match read_int s0 with
  | None => None
  | Some (ip, s1) =>
      let '(fp, fk, s2) := read_frac s1 in
      let (ex, s3) := read_exp s2 in
      let mant := (ip * 10 ^ Z.of_nat fk + fp)%Z in
      let mant := (if neg then - mant else mant)%Z in
      let e := (ex - Z.of_nat fk)%Z in
      let q :=
        if (0 <=? e)%Z then inject_Z (mant * 10 ^ e)
        else Qmake mant (pow10 (- e)) in
      Some (Qred q, s3)
  end.

Fixpoint strip_prefix (p s : string) : option string :=
  match p, s with
  | EmptyString, _ => Some s
  | String a p', String b s' =>
      if Ascii.eqb a b then strip_prefix p' s' else None
  | String _ _, EmptyString => None
  end.

(** [d[k] = v] on an association list in insertion order. *)
Fixpoint dict_set (k : string) (v : json) (kvs : list (string * json))
  : list (string * json) :=
  match kvs with
  | [] => [(k, v)]
  | (k', v') :: rest =>
      if String.eqb k' k then (k', v) :: rest
      else (k', v') :: dict_set k v rest
  end.

Definition read_scalar (s : string) : option (json * string) :=
  match strip_prefix "null" s, strip_prefix "true" s, strip_prefix "false" s
  with
  | Some r, _, _ => Some (JNull, r)
  | _, Some r, _ => Some (JBool true, r)
  | _, _, Some r => Some (JBool false, r)
  | None, None, None =>
      match read_number s with
      | Some (q, r) => Some (JNum q, r)
      | None => None
      end
  end.

Fixpoint value (fuel : nat) (s : string) : option (json * string) :=
  match fuel with
  | O => None
  | S fuel' =>
      match skip_ws s with
      | EmptyString => None
      | String c r as s0 =>
          if Ascii.eqb c "{" then
            match skip_ws r with
            | String d r' =>
                if Ascii.eqb d "}" then Some (JObject [], r')
                else members fuel' r []
            | EmptyString => None
            end
          else if Ascii.eqb c "[" then
            match skip_ws r with
            | String d r' =>
                if Ascii.eqb d "]" then Some (JArray [], r')
                else elements fuel' r []
            | EmptyString => None
            end
          else if Ascii.eqb c Str.dquote then
            match read_string r with
            | Some (str, r') => Some (JStr str, r')
            | None => None
            end
          else read_scalar s0
      end
  end

with elements (fuel : nat) (s : string) (acc : list json)
  : option (json * string) :=
  match fuel with
  | O => None
  | S fuel' =>
      match value fuel' s with
      | None => None
      | Some (v, r) =>
          match skip_ws r with
          | String c r' =>
              if Ascii.eqb c "," then elements fuel' r' (acc ++ [v])
              else if Ascii.eqb c "]" then Some (JArray (acc ++ [v]), r')
              else None
          | EmptyString => None
          end
      end
  end

with members (fuel : nat) (s : string) (acc : list (string * json))
  : option (json * string) :=
  match fuel with
  | O => None
  | S fuel' =>
      match skip_ws s with
      | String q r =>
          if Ascii.eqb q Str.dquote then
            match read_string r with
            | None => None
            | Some (k, r1) =>
                match skip_ws r1 with
                | String colon r2 =>
                    if Ascii.eqb colon ":" then
                      match value fuel' r2 with
                      | None => None
                      | Some (v, r3) =>
                          match skip_ws r3 with
                          | String c r4 =>
                              if Ascii.eqb c "," then
                                members fuel' r4 (dict_set k v acc)
                              else if Ascii.eqb c "}" then
                                Some (JObject (dict_set k v acc), r4)
                              else None
                          | EmptyString => None
                          end
                      end
                    else None
                | EmptyString => None
                end
            end
          else None
      | EmptyString => None
      end
  end.

(** [json.loads] on the texts this reader covers. *)
Definition loads (s : string) : option json :=
  match value (S (String.length s)) s with
  | Some (v, r) =>
      match skip_ws r with
      | EmptyString => Some v
      | String _ _ => None
      end
  | None => None
  end.

End RefJson.

(** A file written one line per entry: each gets its newline. *)
Definition newline : string := String (ascii_of_nat 10) EmptyString.
Definition file_of (lines : list string) : list string :=
  map (fun l => (Str.py l ++ newline)%string) lines.


(** ** The geometry filter, as the specification words it *)

(** A coordinate [sum] accepts: a number, or a Python [bool]. *)
Definition numeric (v : json) : bool :=
  match v with
  | JNum _ | JBool _ => true
  | _ => false
  end.

(** A position the centre computation can read: a list that starts with
    two numeric entries. *)
Definition numeric_position (p : json) : bool :=
  match p with
  | JArray (x :: y :: _) => numeric x && numeric y
  | _ => false
  end.

(** A well-formed position, longitude then latitude. *)
Definition position (p : json) : option (Q * Q) :=
  match p with
  | JArray (JNum lng :: JNum lat :: _) => Some (lng, lat)
  | _ => None
  end.

Fixpoint positions (pts : list json) : option (list (Q * Q)) :=
  match pts with
  | [] => Some []
  | p :: rest =>
      match position p, positions rest with
      | Some xy, Some l => Some (xy :: l)
      | _, _ => None
      end
  end.

(** The outer ring of one polygon: the first of its rings. *)
Definition outer_ring (polygon : json) : option (list json) :=
  match polygon with
  | JArray (JArray pts :: _) => Some pts
  | _ => None
  end.

Fixpoint concat_outer_rings (polygons : list json) : option (list json) :=
  match polygons with
  | [] => Some []
  | p :: rest =>
      match outer_ring p, concat_outer_rings rest with
      | Some r, Some l => Some (r ++ l)
      | _, _ => None
      end
  end.

(** Polygon: [coordinates[0]]; MultiPolygon: the concatenation of
    [coordinates[i][0]] for all [i]. *)
Definition outer_ring_points (ty : string) (coordinates : json)
  : option (list json) :=
  if String.eqb ty "Polygon" then outer_ring coordinates
  else if String.eqb ty "MultiPolygon" then
    match coordinates with
    | JArray polygons => concat_outer_rings polygons
    | _ => None
    end
  else None.

(** The arithmetic mean, summed left to right from zero. *)
Definition mean (l : list Q) : Q :=
  (fold_left Qplus l 0 / inject_Z (Z.of_nat (List.length l)))%Q.

Definition center_lng (pts : list (Q * Q)) : Q := mean (map fst pts).
Definition center_lat (pts : list (Q * Q)) : Q := mean (map snd pts).

(** ** Notions used to state the properties of the extractor *)

(** What is left of the loop after one pass. *)
Definition resume (json_loads : string -> option json) (max_buildings : Z)
  (r : step_result) (rest : list string) : scan_state * list string :=
  match r with
  | Next st => scan json_loads max_buildings st rest
  | Break st => (st, rest)
  end.

(** The counter agrees with the list of kept buildings. *)
Definition counted (st : scan_state) : Prop :=
  found_count st = Z.of_nat (List.length (travis_buildings st)).

(** A pass that keeps the building [v]. *)
Definition kept_one (st : scan_state) (v : json) (s : scan_state) : Prop :=
  travis_buildings s = travis_buildings st ++ [v]
  /\ found_count s = (found_count st + 1)%Z.

(** A pass that keeps nothing. *)
Definition unchanged_count (st s : scan_state) : Prop :=
  travis_buildings s = travis_buildings st
  /\ found_count s = found_count st.

(** What holds of every kept building: it is a value the decoder returned,
    as returned, and the filter accepts it. *)
Definition decoded_in_region (json_loads : string -> option json) (v : json)
  : Prop :=
  is_in_travis_county v = true /\ exists text, json_loads text = Some v.

(** A cap no run over [f] can reach: a line completes at most one
    feature. *)
Definition out_of_reach (f : list string) : Z :=
  (Z.of_nat (List.length f) + 1)%Z.

(** What the extractor keeps of the input, in file order, when the cap is
    out of reach. *)
Definition in_region_features (json_loads : string -> option json)
  (f : list string) : list json :=
  travis_buildings
    (final (process_texas_geojson json_loads (out_of_reach f) f)).

(** The lines that continue a feature text: none carries the features key
    or opens with a bracket or a brace, and the brace count, [count]
    before them, comes back to zero at the last of them and not before. *)
Fixpoint continuation_lines (count : Z) (lines : list string) : bool :=
  match lines with
  | [] => (count =? 0)%Z
  | raw :: rest =>
      let line := Str.strip raw in
      negb (count =? 0)%Z
      && negb (Str.contains features_key line)
      && negb (Str.startswith "[" line)
      && negb (Str.startswith "]" line)
      && negb (Str.startswith "{" line)
      && continuation_lines (count + brace_delta line) rest
  end.

(** The lines of one brace-balanced object of the features array: the
    first opens with a brace, the others continue it. *)
Definition feature_lines (lines : list string) : bool :=
  match lines with
  | [] => false
  | raw :: rest =>
      let line := Str.strip raw in
      Str.startswith "{" line
      && negb (Str.contains features_key line)
      && continuation_lines (brace_delta line) rest
  end.

(** The text the buffer holds once these lines are read. *)
Fixpoint feature_text (lines : list string) : string :=
  match lines with
  | [] => EmptyString
  | raw :: rest => (Str.strip raw ++ feature_text rest)%string
  end.

(** ** Example inputs *)

(** The Polygon of the specification's example; the mean of its five
    points is (-97.66, 30.34). *)
Definition austin_text : string :=
  Str.py
    "{'type':'Feature','geometry':{'type':'Polygon','coordinates':[[[-97.7,30.3],[-97.6,30.3],[-97.6,30.4],[-97.7,30.4],[-97.7,30.3]]]},'properties':{}}".

Definition austin_ring : list (Q * Q) :=
  [(- (977 # 10), 303 # 10); (- (976 # 10), 303 # 10);
   (- (976 # 10), 304 # 10); (- (977 # 10), 304 # 10);
   (- (977 # 10), 303 # 10)]%Q.

Definition as_position (xy : Q * Q) : json :=
  JArray [JNum (Qred (fst xy)); JNum (Qred (snd xy))].

Definition polygon_geometry (ring : list (Q * Q)) : list (string * json) :=
  [("type", JStr "Polygon");
   ("coordinates", JArray [JArray (map as_position ring)])].

Definition polygon_fields (ring : list (Q * Q)) : list (string * json) :=
  [("type", JStr "Feature");
   ("geometry", JObject (polygon_geometry ring));
   ("properties", JObject [])].

Definition polygon_feature (ring : list (Q * Q)) : json :=
  JObject (polygon_fields ring).

Definition austin : json := polygon_feature austin_ring.

(** A Polygon with every point at longitude -95.0. *)
Definition houston_text : string :=
  Str.py
    "{'type':'Feature','geometry':{'type':'Polygon','coordinates':[[[-95.0,29.7],[-95.0,29.8],[-95.0,29.7]]]},'properties':{}}".

Definition houston : json :=
  polygon_feature
    [(- (950 # 10), 297 # 10); (- (950 # 10), 298 # 10);
     (- (950 # 10), 297 # 10)]%Q.

(** A second in-region Polygon. *)
Definition pflugerville_text : string :=
  Str.py
    "{'type':'Feature','geometry':{'type':'Polygon','coordinates':[[[-97.62,30.44],[-97.61,30.44],[-97.61,30.45]]]},'properties':{}}".

Definition pflugerville : json :=
  polygon_feature
    [(- (9762 # 100), 3044 # 100); (- (9761 # 100), 3044 # 100);
     (- (9761 # 100), 3045 # 100)]%Q.

(** An object whose text is not valid JSON, braces balanced. *)
Definition broken_text : string :=
  Str.py "{'type':'Feature','geometry':{'type':'Polygon',,}}".

Definition with_comma (text : string) : string := (text ++ ",")%string.

(** A Polygon with a longitude given as a string. *)
Definition string_coordinate : json :=
  JObject
    [("type", JStr "Feature");
     ("geometry",
      JObject
        [("type", JStr "Polygon");
         ("coordinates",
          JArray [JArray [JArray [JStr "-97.7"; JNum (303 # 10)]]])])].

(** A feature whose geometry is [null], and one without geometry. *)
Definition null_geometry : json :=
  JObject [("type", JStr "Feature"); ("geometry", JNull)].
Definition no_geometry : json :=
  JObject [("type", JStr "Feature"); ("properties", JObject [])].

(** The same broken object spread over two lines. *)
Definition broken_lines : list string :=
  map (fun l => (l ++ newline)%string)
    [Str.py "  {'type':'Feature',";
     Str.py "   'geometry':{'type':'Polygon',,}},"].

(** The loop in the middle of a feature that spans several lines. *)
Definition mid_feature : scan_state :=
  {| in_features := true;
     feature_buffer := Str.py "{'type':'Feature','properties':";
     brace_count := 1;
     travis_buildings := [];
     total_features := 0;
     found_count := 0;
     printed := [] |}.

(** The loop as a completed buffer with the broken text reaches the
    decoder. *)
Definition at_broken : scan_state :=
  {| in_features := true;
     feature_buffer := with_comma broken_text;
     brace_count := 0;
     travis_buildings := [];
     total_features := 0;
     found_count := 0;
     printed := [] |}.

Definition austin_lines : list string :=
  [(with_comma austin_text ++ newline)%string].

Definition pflugerville_lines : list string :=
  [(pflugerville_text ++ newline)%string].

Definition closing_lines : list string :=
  [("]" ++ newline)%string; ("}" ++ newline)%string].

(** The loop once it has met a line with the features key. *)
Definition live_state : scan_state := set_in_features initial_state.

(** A file in the documented layout: the type tag, the features key, then
    one feature per line between the brackets. *)
Definition documented_file : list string :=
  map (fun l => (l ++ newline)%string)
    [Str.py "{'type':'FeatureCollection',";
     Str.py "'features':";
     "[";
     with_comma austin_text;
     houston_text;
     "]";
     "}"].

(** The same features after a second line that carries the features key. *)
Definition two_key_file : list string :=
  map (fun l => (l ++ newline)%string)
    [Str.py "{'type':'FeatureCollection',";
     Str.py "'name':'features',";
     Str.py "'features':";
     "[";
     with_comma austin_text;
     with_comma houston_text;
     pflugerville_text;
     "]";
     "}"].

(** The same file with its first line indented. *)
Definition indented_file : list string :=
  ("  " ++ hd EmptyString two_key_file)%string :: tl two_key_file.

Definition houston_lines : list string :=
  [(with_comma houston_text ++ newline)%string].

(** The lines of [two_key_file] one by one. *)
Definition tag_line : string :=
  (Str.py "{'type':'FeatureCollection'," ++ newline)%string.
Definition name_line : string :=
  (Str.py "'name':'features'," ++ newline)%string.
Definition features_line : string :=
  (Str.py "'features':" ++ newline)%string.
Definition crs_line : string := (Str.py "'crs':null," ++ newline)%string.
Definition open_bracket_line : string := ("[" ++ newline)%string.
Definition close_bracket_line : string := ("]" ++ newline)%string.
Definition close_brace_line : string := ("}" ++ newline)%string.

(** The Polygon of the example with a second ring that is no ring. *)
Definition holed_geometry : list (string * json) :=
  [("type", JStr "Polygon");
   ("coordinates",
    JArray [JArray (map as_position austin_ring); JStr "not a ring"])].
Definition holed_fields : list (string * json) :=
  [("geometry", JObject holed_geometry)].

(** The same five points as a MultiPolygon of two polygons. *)
Definition split_geometry : list (string * json) :=
  [("type", JStr "MultiPolygon");
   ("coordinates",
    JArray [JArray [JArray (map as_position (firstn 2 austin_ring))];
            JArray [JArray (map as_position (skipn 2 austin_ring))]])].
Definition split_fields : list (string * json) :=
  [("geometry", JObject split_geometry)].

(** ** The geometry filter over any arithmetic

    The filter above adds, divides and compares exact rationals.  Python
    does it with its own numbers: exact integers, and binary floats that
    round; an addition or a division can also raise [OverflowError].  Here
    the filter is written once more with the numbers left open: a type [N]
    of numbers and the operations the source applies to them.  What is
    proved of it holds for every interpretation of the numbers, the
    floats of Python included. *)

Module Generic.

Inductive error : Type :=
| KeyError | TypeError | IndexError | OverflowError.

Inductive outcome (A : Type) : Type :=
| Done (a : A)
| Raised (e : error).
Arguments Done {A} a.
Arguments Raised {A} e.

Definition and_then {A B : Type} (m : outcome A) (k : A -> outcome B)
  : outcome B :=
  match m with
  | Done a => k a
  | Raised e => Raised e
  end.

Notation "x <~ m ;; k" := (and_then m (fun x => k))
  (at level 61, m at next level, right associativity).

Section Numbers.

(** The numbers of a decoded document. *)
Variable N : Type.

Inductive value : Type :=
| VNull
| VBool (b : bool)
| VNum (n : N)
| VStr (s : string)
| VArray (xs : list value)
| VObject (kvs : list (string * value)).

(** What the source does with numbers.  [running] is what [sum] carries
    from one item to the next: the total so far, and whatever the
    interpreter keeps beside it (a correction term for a total of floats,
    in interpreters that sum floats with compensation). *)
Record arithmetic : Type := mkArithmetic {
  running : Type;
  zero : running;                  (* [sum] starts from [0] *)
  of_bool : bool -> N;             (* [True] counts as 1, [False] as 0 *)
  literal : Q -> N;                (* a decimal literal of the source *)
  is_zero : N -> bool;             (* [not x] *)
  plus : running -> N -> option running;
                                   (* one more item; [None]: [OverflowError] *)
  div_len : running -> nat -> option N;
                                   (* [sum(...) / n]; [None]: [OverflowError] *)
  le : N -> N -> bool              (* [x <= y] *)
}.

Variable A : arithmetic.

Definition eq_str (v : value) (s : string) : bool :=
  match v with
  | VStr t => String.eqb t s
  | _ => false
  end.

Fixpoint lookup (key : string) (kvs : list (string * value)) : option value :=
  match kvs with
  | [] => None
  | (k, v) :: rest => if String.eqb k key then Some v else lookup key rest
  end.

(** [key in v] *)
Definition contains (key : string) (v : value) : outcome bool :=
  match v with
  | VObject kvs =>
      Done (match lookup key kvs with Some _ => true | None => false end)
  | VArray xs => Done (existsb (fun x => eq_str x key) xs)
  | VStr s => Done (Str.contains key s)
  | VNull | VBool _ | VNum _ => Raised TypeError
  end.

(** [v[key]] for a string [key] *)
Definition getitem (v : value) (key : string) : outcome value :=
  match v with
  | VObject kvs =>
      match lookup key kvs with
      | Some x => Done x
      | None => Raised KeyError
      end
  | _ => Raised TypeError
  end.

(** [v[i]] for a non-negative integer [i] *)
Definition index (v : value) (i : nat) : outcome value :=
  match v with
  | VArray xs =>
      match nth_error xs i with
      | Some x => Done x
      | None => Raised IndexError
      end
  | VStr s =>
      match String.get i s with
      | Some c => Done (VStr (String c EmptyString))
      | None => Raised IndexError
      end
  | VObject _ => Raised KeyError
  | VNull | VBool _ | VNum _ => Raised TypeError
  end.

(** The items [for x in v] runs over. *)
Definition iter (v : value) : outcome (list value) :=
  match v with
  | VArray xs => Done xs
  | VStr s =>
      Done (map (fun c => VStr (String c EmptyString)) (list_ascii_of_string s))
  | VObject kvs => Done (map (fun kv => VStr (fst kv)) kvs)
  | VNull | VBool _ | VNum _ => Raised TypeError
  end.

(** [len(v)] *)
Definition len (v : value) : outcome nat :=
  match v with
  | VArray xs => Done (List.length xs)
  | VStr s => Done (String.length s)
  | VObject kvs => Done (List.length kvs)
  | VNull | VBool _ | VNum _ => Raised TypeError
  end.

(** Truth value, as [not v] tests it. *)
Definition truthy (v : value) : bool :=
  match v with
  | VNull => false
  | VBool b => b
  | VNum n => negb (is_zero A n)
  | VStr s => Str.nonempty s
  | VArray xs => match xs with [] => false | _ => true end
  | VObject kvs => match kvs with [] => false | _ => true end
  end.

Definition overflow {X : Type} (r : option X) : outcome X :=
  match r with
  | Some n => Done n
  | None => Raised OverflowError
  end.

(** One step of [sum]: [acc + v]. *)
Definition add (acc : running A) (v : value) : outcome (running A) :=
  match v with
  | VNum n => overflow (plus A acc n)
  | VBool b => overflow (plus A acc (of_bool A b))
  | VNull | VStr _ | VArray _ | VObject _ => Raised TypeError
  end.

(** [sum(coord[i] for coord in coords)], from the running total [acc]. *)
Fixpoint sum_at (i : nat) (coords : list value) (acc : running A)
  : outcome (running A) :=
  match coords with
  | [] => Done acc
  | coord :: rest =>
      x <~ index coord i ;;
      acc' <~ add acc x ;;
      sum_at i rest acc'
  end.

Record bounds : Type := mkBounds {
  north : N;
  south : N;
  east : N;
  west : N
}.

Definition TRAVIS_BOUNDS : bounds :=
  {| north := literal A (308 # 10);
     south := literal A (300 # 10);
     east := literal A (- (974 # 10));
     west := literal A (- (982 # 10)) |}.

Fixpoint extend_outer_rings (polygons : list value) (coordinates : list value)
  : outcome (list value) :=
  match polygons with
  | [] => Done coordinates
  | polygon :: rest =>
      ring <~ index polygon 0 ;;
      pts <~ iter ring ;;
      extend_outer_rings rest (coordinates ++ pts)
  end.

Definition select_coordinates (geometry : value) : outcome (option value) :=
  ty <~ getitem geometry "type" ;;
  if eq_str ty "Polygon" then
    c <~ getitem geometry "coordinates" ;;
    ring <~ index c 0 ;;
    Done (Some ring)
  else
    ty' <~ getitem geometry "type" ;;
    if eq_str ty' "MultiPolygon" then
      c <~ getitem geometry "coordinates" ;;
      polygons <~ iter c ;;
      pts <~ extend_outer_rings polygons [] ;;
      Done (Some (VArray pts))
    else Done None.

(** The [return] of the source: both coordinates of the centre within the
    bounds, the bounds included. *)
Definition within_bounds (center_lng center_lat : N) : bool :=
  (le A (south TRAVIS_BOUNDS) center_lat
   && le A center_lat (north TRAVIS_BOUNDS))
  && (le A (west TRAVIS_BOUNDS) center_lng
      && le A center_lng (east TRAVIS_BOUNDS)).

Definition center_in_bounds (coordinates : value) : outcome bool :=
  if negb (truthy coordinates) then Done false
  else
    pts <~ iter coordinates ;;
    sum_lng <~ sum_at 0 pts (zero A) ;;
    n <~ len coordinates ;;
    center_lng <~ overflow (div_len A sum_lng n) ;;
    pts' <~ iter coordinates ;;
    sum_lat <~ sum_at 1 pts' (zero A) ;;
    n' <~ len coordinates ;;
    center_lat <~ overflow (div_len A sum_lat n') ;;
    Done (within_bounds center_lng center_lat).

Definition is_in_travis_county_try (feature : value) : outcome bool :=
  has_geometry <~ contains "geometry" feature ;;
  if negb has_geometry then Done false
  else
    g <~ getitem feature "geometry" ;;
    has_coordinates <~ contains "coordinates" g ;;
    if negb has_coordinates then Done false
    else
      geometry <~ getitem feature "geometry" ;;
      sel <~ select_coordinates geometry ;;
      match sel with
      | None => Done false
      | Some coordinates => center_in_bounds coordinates
      end.

Definition is_in_travis_county (feature : value) : bool :=
  match is_in_travis_county_try feature with
  | Done b => b
  | Raised _ => false
  end.

(** The filter as the specification words it. *)

Definition position (p : value) : option (N * N) :=
  match p with
  | VArray (VNum lng :: VNum lat :: _) => Some (lng, lat)
  | _ => None
  end.

Fixpoint positions (pts : list value) : option (list (N * N)) :=
  match pts with
  | [] => Some []
  | p :: rest =>
      match position p, positions rest with
      | Some xy, Some l => Some (xy :: l)
      | _, _ => None
      end
  end.

Definition outer_ring (polygon : value) : option (list value) :=
  match polygon with
  | VArray (VArray pts :: _) => Some pts
  | _ => None
  end.

Fixpoint concat_outer_rings (polygons : list value) : option (list value) :=
  match polygons with
  | [] => Some []
  | p :: rest =>
      match outer_ring p, concat_outer_rings rest with
      | Some r, Some l => Some (r ++ l)
      | _, _ => None
      end
  end.

Definition outer_ring_points (ty : string) (coordinates : value)
  : option (list value) :=
  if String.eqb ty "Polygon" then outer_ring coordinates
  else if String.eqb ty "MultiPolygon" then
    match coordinates with
    | VArray polygons => concat_outer_rings polygons
    | _ => None
    end
  else None.

(** The numbers added one after the other to [acc]; [None] when an
    addition overflows. *)
Fixpoint total (l : list N) (acc : running A) : option (running A) :=
  match l with
  | [] => Some acc
  | x :: rest =>
      match plus A acc x with
      | Some acc' => total rest acc'
      | None => None
      end
  end.

(** The arithmetic mean as the source computes it: the sum from zero,
    divided by the number of points. *)
Definition mean (l : list N) : option N :=
  match total l (zero A) with
  | Some s => div_len A s (List.length l)
  | None => None
  end.

End Numbers.

Arguments running {N}.
Arguments zero {N}.
Arguments of_bool {N}.
Arguments literal {N}.
Arguments is_zero {N}.
Arguments plus {N}.
Arguments div_len {N}.
Arguments le {N}.
Arguments eq_str {N}.
Arguments lookup {N}.
Arguments contains {N}.
Arguments getitem {N}.
Arguments index {N}.
Arguments iter {N}.
Arguments len {N}.
Arguments truthy {N}.
Arguments overflow {X}.
Arguments add {N}.
Arguments sum_at {N}.
Arguments north {N}.
Arguments south {N}.
Arguments east {N}.
Arguments west {N}.
Arguments TRAVIS_BOUNDS {N}.
Arguments extend_outer_rings {N}.
Arguments select_coordinates {N}.
Arguments within_bounds {N}.
Arguments center_in_bounds {N}.
Arguments is_in_travis_county_try {N}.
Arguments is_in_travis_county {N}.
Arguments position {N}.
Arguments positions {N}.
Arguments outer_ring {N}.
Arguments concat_outer_rings {N}.
Arguments outer_ring_points {N}.
Arguments total {N}.
Arguments mean {N}.
Arguments VNull {N}.
Arguments VBool {N} b.
Arguments VNum {N} n.
Arguments VStr {N} s.
Arguments VArray {N} xs.
Arguments VObject {N} kvs.

(** Exact rational arithmetic: nothing rounds, nothing overflows. *)
Definition exact : arithmetic Q :=
  {| running := Q;
     zero := 0;
     of_bool := fun b => if b then 1 else 0;
     literal := fun q => q;
     is_zero := fun q => Qeq_bool q 0;
     plus := fun x y => Some (x + y)%Q;
     div_len := fun x n => Some (x / inject_Z (Z.of_nat n))%Q;
     le := Qle_bool |}.

(** Binary floating point: every number a double of IEEE 754, as the
    kernel computes them, a sum being the items added one after the other.
    This is the arithmetic of Python on a document whose numbers are floats
    (and on integers as long as they and their sums stay below 2^53);
    larger integers, [OverflowError] and compensated summation are not in
    it.  It serves in examples. *)
Definition float_of_Z (z : Z) : PrimFloat.float :=
  match z with
  | Z0 => PrimFloat.zero
  | Zpos _ => PrimFloat.of_uint63 (Uint63.of_Z z)
  | Zneg p => PrimFloat.opp (PrimFloat.of_uint63 (Uint63.of_Z (Zpos p)))
  end.

Definition binary64 : arithmetic PrimFloat.float :=
  {| running := PrimFloat.float;
     zero := PrimFloat.zero;
     of_bool := fun b => if b then PrimFloat.one else PrimFloat.zero;
     literal := fun q =>
       PrimFloat.div (float_of_Z (Qnum q)) (float_of_Z (Zpos (Qden q)));
     is_zero := fun x => PrimFloat.eqb x PrimFloat.zero;
     plus := fun x y => Some (PrimFloat.add x y);
     div_len := fun x n =>
       Some (PrimFloat.div x (float_of_Z (Z.of_nat n)));
     le := PrimFloat.leb |}.

(** A Polygon feature with the given ring, its numbers read by [A]. *)
Definition ring_of {N : Type} (A : arithmetic N) (ring : list (Q * Q))
  : list (value N) :=
  map (fun xy => VArray [VNum (literal A (fst xy)); VNum (literal A (snd xy))])
    ring.

Definition polygon_geometry_of {N : Type} (A : arithmetic N)
  (ring : list (Q * Q)) : list (string * value N) :=
  [("type", VStr "Polygon");
   ("coordinates", VArray [VArray (ring_of A ring)])].

Definition polygon_fields_of {N : Type} (A : arithmetic N)
  (ring : list (Q * Q)) : list (string * value N) :=
  [("type", VStr "Feature");
   ("geometry", VObject (polygon_geometry_of A ring))].

Definition polygon_of {N : Type} (A : arithmetic N) (ring : list (Q * Q))
  : value N :=
  VObject (polygon_fields_of A ring).

End Generic.

(** Three points whose longitudes have the east bound for exact mean. *)
Definition boundary_ring : list (Q * Q) :=
  [(- (966 # 10), 303 # 10); (- (974 # 10), 303 # 10);
   (- (982 # 10), 303 # 10)]%Q.

(** A decoded document with its numbers read as exact rationals. *)
Fixpoint as_value (v : json) : Generic.value Q :=
  match v with
  | JNull => Generic.VNull
  | JBool b => Generic.VBool b
  | JNum q => Generic.VNum q
  | JStr s => Generic.VStr s
  | JArray xs => Generic.VArray (map as_value xs)
  | JObject kvs =>
      Generic.VObject (map (fun kv => (fst kv, as_value (snd kv))) kvs)
  end.

Definition value_fields (kvs : list (string * json))
  : list (string * Generic.value Q) :=
  map (fun kv => (fst kv, as_value (snd kv))) kvs.

(** The exceptions of the exact filter among those of the generic one. *)
Definition as_error (e : exn) : Generic.error :=
  match e with
  | KeyError => Generic.KeyError
  | TypeError => Generic.TypeError
  | IndexError => Generic.IndexError
  end.

Definition as_outcome {X Y : Type} (f : X -> Y) (r : result X)
  : Generic.outcome Y :=
  match r with
  | Ok x => Generic.Done (f x)
  | Raise e => Generic.Raised (as_error e)
  end.

(** ** Inputs of the second batch of examples *)

(** A Polygon whose first position has a boolean for longitude. *)
Definition boolean_coordinate_text : string :=
  Str.py
    "{'type':'Feature','geometry':{'type':'Polygon','coordinates':[[[true,30.3],[-196.1,30.3]]]}}".

Definition boolean_coordinate : json :=
  JObject
    [("type", JStr "Feature");
     ("geometry",
      JObject
        [("type", JStr "Polygon");
         ("coordinates",
          JArray
            [JArray [JArray [JBool true; JNum (303 # 10)];
                     JArray [JNum (- (1961 # 10)); JNum (303 # 10)]]])])].

(** A broken object whose second line begins with a closing bracket. *)
Definition bracket_broken_lines : list string :=
  map (fun l => (l ++ newline)%string)
    [Str.py "{'type':'Feature','geometry':{'coordinates':[1,,";
     "]}},"].

(** A broken object that lacks its closing braces. *)
Definition unbalanced_lines : list string :=
  [(Str.py "{'type':'Feature','geometry':{," ++ newline)%string].

(** The whole text of a file. *)
Fixpoint file_text (f : list string) : string :=
  match f with
  | [] => EmptyString
  | l :: rest => (l ++ file_text rest)%string
  end.

(** The features array of a decoded feature collection. *)
Definition features_of (doc : json) : list json :=
  match doc with
  | JObject kvs =>
      match Py.lookup "features" kvs with
      | Some (JArray features) => features
      | _ => []
      end
  | _ => []
  end.

(** A feature collection with one in-region feature written on three
    lines, the second of which begins with an opening bracket. *)
Definition nested_file : list string :=
  map (fun l => (Str.py l ++ newline)%string)
    ["{'type':'FeatureCollection',";
     "'name':'features',";
     "'features':";
     "[";
     "{'type':'Feature','geometry':{'type':'Polygon','coordinates':[[[-97.7,30.3]]]},'properties':{'a':[1,";
     "[2],";
     "3]}}";
     "]";
     "}"].

Definition nested_properties (a : list json) : json :=
  JObject
    [("type", JStr "Feature");
     ("geometry",
      JObject
        [("type", JStr "Polygon");
         ("coordinates",
          JArray [JArray [JArray [JNum (- (977 # 10)); JNum (303 # 10)]]])]);
     ("properties", JObject [("a", JArray a)])].

(** The feature the file holds, and the one the extractor writes. *)
Definition nested_feature : json :=
  nested_properties [JNum 1; JArray [JNum 2]; JNum 3].
Definition flattened_feature : json :=
  nested_properties [JNum 1; JNum 3].

(** A file whose only feature is out of region. *)
Definition houston_only_file : list string :=
  tag_line :: name_line :: features_line :: open_bracket_line
  :: [(houston_text ++ newline)%string; close_bracket_line; close_brace_line].

(** ** The entry point *)

(** The default of the [max_buildings] parameter. *)
Definition default_max_buildings : Z := 5000.

(** What [main] prints besides the lines of the extractor. *)
Inductive main_event : Type :=
| PrintInputNotFound  (* "Error: ... not found" and the hint under it *)
| PrintNextSteps.     (* "Next steps:" and its three lines *)

(** [main].  [input_file] is the content of [public/data/Texas.geojson],
    [None] when the file does not exist; the run of the extractor, if any,
    comes with what [main] printed. *)
Definition main (json_loads : string -> option json)
  (input_file : option (list string)) : option run * list main_event :=
  match input_file with
  | None => (None, [PrintInputNotFound])
  | Some f =>
      (Some (process_texas_geojson json_loads default_max_buildings f),
       [PrintNextSteps])
  end.

(** The document [main] leaves in [travis-buildings.json], if any. *)
Definition main_output (json_loads : string -> option json)
  (input_file : option (list string)) : option json :=
  match fst (main json_loads input_file) with
  | Some r => output_file r
  | None => None
  end.

(** A feature that is a mapping whose geometry is a mapping of type
    Polygon or MultiPolygon with coordinates. *)
Definition polygonal (v : json) : Prop :=
  exists fkvs gkvs ty coords,
    v = JObject fkvs
    /\ Py.lookup "geometry" fkvs = Some (JObject gkvs)
    /\ Py.lookup "type" gkvs = Some (JStr ty)
    /\ (ty = "Polygon" \/ ty = "MultiPolygon")
    /\ Py.lookup "coordinates" gkvs = Some coords.

(** The lines of the file (as read) that carry the features key. *)
Definition key_lines (f : list string) : list string :=
  filter (Str.contains features_key) f.

(** ** Properties of the geometry filter *)

Lemma bind_Ok {A B : Type} (m : result A) (k : A -> result B) (b : B) :
  bind m k = Ok b -> exists a, m = Ok a /\ k a = Ok b.
Proof.
  destruct m as [a|e]; simpl; intros H; [eauto | discriminate].
Qed.

Tactic Notation "bind_inv" hyp(H) "as" ident(a) ident(Ha) :=
  apply bind_Ok in H; destruct H as (a & Ha & H).

Lemma sum_at_positions (i : nat) (proj : Q * Q -> Q) :
  (forall p xy, position p = Some xy -> Py.index p i = Ok (JNum (proj xy))) ->
  forall raw pts acc,
    positions raw = Some pts ->
    Py.sum_at i raw acc = Ok (fold_left Qplus (map proj pts) acc).
Proof.
  intros Hproj raw; induction raw as [|p raw IH]; intros pts acc H; simpl in *.
  - injection H as <-; reflexivity.
  - destruct (position p) as [xy|] eqn:Hp; [|discriminate].
    destruct (positions raw) as [l|] eqn:Hl; [|discriminate].
    injection H as <-.
    rewrite (Hproj _ _ Hp); simpl.
    apply IH; reflexivity.
Qed.

Lemma position_index_0 p xy :
  position p = Some xy -> Py.index p 0 = Ok (JNum (fst xy)).
Proof.
  destruct p as [| | | |xs|]; try discriminate.
  destruct xs as [|x xs]; try discriminate.
  destruct x; try discriminate.
  destruct xs as [|y xs]; try discriminate.
  destruct y; try discriminate.
  simpl; intros H; injection H as <-; reflexivity.
Qed.

Lemma position_index_1 p xy :
  position p = Some xy -> Py.index p 1 = Ok (JNum (snd xy)).
Proof.
  destruct p as [| | | |xs|]; try discriminate.
  destruct xs as [|x xs]; try discriminate.
  destruct x; try discriminate.
  destruct xs as [|y xs]; try discriminate.
  destruct y; try discriminate.
  simpl; intros H; injection H as <-; reflexivity.
Qed.

Lemma positions_length raw pts :
  positions raw = Some pts -> List.length raw = List.length pts.
Proof.
  revert pts; induction raw as [|p raw IH]; intros pts H; simpl in *.
  - injection H as <-; reflexivity.
  - destruct (position p); [|discriminate].
    destruct (positions raw) as [l|]; [|discriminate].
    injection H as <-; simpl; f_equal; apply IH; reflexivity.
Qed.

Lemma extend_outer_rings_concat polygons :
  forall acc l,
    concat_outer_rings polygons = Some l ->
    extend_outer_rings polygons acc = Ok (acc ++ l).
Proof.
  induction polygons as [|p rest IH]; intros acc l H; simpl in *.
  - injection H as <-; rewrite app_nil_r; reflexivity.
  - destruct (outer_ring p) as [r|] eqn:Hr; [|discriminate].
    destruct (concat_outer_rings rest) as [l'|] eqn:Hl; [|discriminate].
    injection H as <-.
    destruct p as [| | | |[|[| | | |pts|] ?]|]; try discriminate.
    simpl in Hr; injection Hr as <-; simpl.
    rewrite (IH _ _ eq_refl), app_assoc; reflexivity.
Qed.

(** The selection of the source agrees with the specification's point set
    on list-shaped coordinates. *)
Lemma select_coordinates_points gkvs ty c raw :
  Py.lookup "type" gkvs = Some (JStr ty) ->
  Py.lookup "coordinates" gkvs = Some c ->
  outer_ring_points ty c = Some raw ->
  select_coordinates (JObject gkvs) = Ok (Some (JArray raw)).
Proof.
  intros Hty Hc Hpts; unfold select_coordinates, outer_ring_points in *.
  simpl; rewrite Hty; simpl.
  destruct (String.eqb ty "Polygon").
  - rewrite Hc; simpl.
    destruct c as [| | | |[|[| | | |pts|] ?]|]; try discriminate.
    injection Hpts as <-; reflexivity.
  - destruct (String.eqb ty "MultiPolygon"); [|discriminate].
    rewrite ?Hc; simpl.
    destruct c as [| | | |polygons|]; try discriminate; simpl.
    rewrite (extend_outer_rings_concat _ [] _ Hpts); reflexivity.
Qed.

Lemma center_in_bounds_positions raw pts :
  positions raw = Some pts ->
  pts <> [] ->
  center_in_bounds (JArray raw) =
  Ok (between (south TRAVIS_BOUNDS) (center_lat pts) (north TRAVIS_BOUNDS)
      && between (west TRAVIS_BOUNDS) (center_lng pts) (east TRAVIS_BOUNDS)).
Proof.
  intros Hpos Hne; unfold center_in_bounds.
  assert (Hraw : Py.truthy (JArray raw) = true).
  { destruct raw; [|reflexivity]. simpl in Hpos; injection Hpos as <-.
    contradiction Hne; reflexivity. }
  rewrite Hraw; simpl.
  rewrite (sum_at_positions 0 fst position_index_0 _ _ _ Hpos); simpl.
  rewrite (sum_at_positions 1 snd position_index_1 _ _ _ Hpos); simpl.
  unfold center_lat, center_lng, mean.
  rewrite !length_map, (positions_length _ _ Hpos); reflexivity.
Qed.

Lemma between_iff a x b : between a x b = true <-> (a <= x /\ x <= b)%Q.
Proof.
  unfold between; rewrite andb_true_iff, !Qle_bool_iff; reflexivity.
Qed.

Lemma sum_at_Ok_numeric raw :
  forall a b s0 s1,
    Py.sum_at 0 raw a = Ok s0 ->
    Py.sum_at 1 raw b = Ok s1 ->
    forallb numeric_position raw = true.
Proof.
  induction raw as [|p raw IH]; intros a b s0 s1 H0 H1; [reflexivity|].
  simpl in H0, H1.
  bind_inv H0 as x Hx; bind_inv H0 as a' Hax.
  bind_inv H1 as y Hy; bind_inv H1 as b' Hby.
  simpl; rewrite (IH _ _ _ _ H0 H1), andb_true_r.
  destruct p as [| | |s|xs|]; try discriminate.
  - simpl in Hx; destruct (String.get 0 s); [|discriminate].
    injection Hx as <-; discriminate.
  - destruct xs as [|x0 [|y0 xs]]; try discriminate.
    simpl in Hx, Hy; injection Hx as <-; injection Hy as <-.
    destruct x0, y0; try discriminate; reflexivity.
Qed.

(** The centre test answers [True] only on a non-empty list of positions
    that start with two numeric entries. *)
Lemma center_in_bounds_true coords :
  center_in_bounds coords = Ok true ->
  exists raw,
    coords = JArray raw /\ raw <> [] /\ forallb numeric_position raw = true.
Proof.
  unfold center_in_bounds; intros H.
  destruct (Py.truthy coords) eqn:Ht; [|discriminate]; simpl in H.
  bind_inv H as pts Hpts; bind_inv H as s0 Hs0; bind_inv H as n Hn.
  bind_inv H as pts' Hpts'; bind_inv H as s1 Hs1; bind_inv H as n' Hn'.
  rewrite Hpts in Hpts'; injection Hpts' as <-.
  pose proof (sum_at_Ok_numeric _ _ _ _ _ Hs0 Hs1) as Hnum.
  destruct coords as [| | |s|xs|kvs]; try discriminate.
  - destruct s; [discriminate|].
    simpl in Hpts; injection Hpts as <-; discriminate.
  - simpl in Hpts; injection Hpts as <-.
    exists xs; repeat split; [|exact Hnum].
    intros ->; discriminate.
  - destruct kvs; [discriminate|].
    simpl in Hpts; injection Hpts as <-; discriminate.
Qed.

Lemma is_in_travis_county_true feature :
  is_in_travis_county feature = true ->
  exists g coords,
    Py.getitem feature "geometry" = Ok g
    /\ Py.contains "coordinates" g = Ok true
    /\ select_coordinates g = Ok (Some coords)
    /\ center_in_bounds coords = Ok true.
Proof.
  unfold is_in_travis_county; intros H.
  destruct (is_in_travis_county_try feature) as [b|] eqn:Htry; [|discriminate].
  subst b; unfold is_in_travis_county_try in Htry.
  bind_inv Htry as hg Hhg; destruct hg; [|discriminate]; simpl in Htry.
  bind_inv Htry as g Hg; bind_inv Htry as hc Hhc.
  destruct hc; [|discriminate]; simpl in Htry.
  bind_inv Htry as g' Hg'; bind_inv Htry as sel Hsel.
  destruct sel as [coords|]; [|discriminate].
  rewrite Hg in Hg'; injection Hg' as <-.
  exists g, coords; auto.
Qed.

(** C5, for the malformed inputs on which the check fails.  The filter
    never raises: whenever its body fails with an exception the answer is
    [False]; a feature without the geometry key, a geometry without the
    coordinates key, a geometry that is not a mapping, and a selected point
    set that is not a list of positions starting with two numeric entries
    (a boolean counts as a number, as for [sum]) all give [False]. *)
Theorem C5_malformed_is_not_in_region (feature : json) :
  (forall e, is_in_travis_county_try feature = Raise e ->
             is_in_travis_county feature = false)
  /\ (Py.contains "geometry" feature = Ok false ->
      is_in_travis_county feature = false)
  /\ (forall g, Py.getitem feature "geometry" = Ok g ->
                Py.contains "coordinates" g = Ok false ->
                is_in_travis_county feature = false)
  /\ (forall g, Py.getitem feature "geometry" = Ok g ->
                (forall kvs, g <> JObject kvs) ->
                is_in_travis_county feature = false)
  /\ (forall g coords,
        Py.getitem feature "geometry" = Ok g ->
        select_coordinates g = Ok (Some coords) ->
        (forall raw, coords = JArray raw ->
                     forallb numeric_position raw = false) ->
        is_in_travis_county feature = false).
Proof.
  repeat split.
  - intros e H; unfold is_in_travis_county; rewrite H; reflexivity.
  - intros H; unfold is_in_travis_county, is_in_travis_county_try.
    rewrite H; reflexivity.
  - intros g Hg Hc.
    destruct (is_in_travis_county feature) eqn:E; [|reflexivity].
    apply is_in_travis_county_true in E.
    destruct E as (g' & coords & Hg' & Hc' & _).
    congruence.
  - intros g Hg Hshape.
    destruct (is_in_travis_county feature) eqn:E; [|reflexivity].
    apply is_in_travis_county_true in E.
    destruct E as (g' & coords & Hg' & _ & Hsel & _).
    assert (g' = g) by congruence; subst g'.
    unfold select_coordinates in Hsel; bind_inv Hsel as ty Hty.
    destruct g; try discriminate.
    contradiction (Hshape kvs); reflexivity.
  - intros g coords Hg Hsel Hbad.
    destruct (is_in_travis_county feature) eqn:E; [|reflexivity].
    apply is_in_travis_county_true in E.
    destruct E as (g' & coords' & Hg' & _ & Hsel' & Hcenter).
    assert (g' = g) by congruence; subst g'.
    assert (coords' = coords) by congruence; subst coords'.
    apply center_in_bounds_true in Hcenter.
    destruct Hcenter as (raw & -> & _ & Hnum).
    rewrite (Hbad raw eq_refl) in Hnum; discriminate.
Qed.

(** The failures of the body on three malformed features, and the answer
    of the filter on each. *)
Example malformed_features_are_false :
  is_in_travis_county_try string_coordinate = Raise TypeError
  /\ is_in_travis_county string_coordinate = false
  /\ is_in_travis_county_try null_geometry = Raise TypeError
  /\ is_in_travis_county null_geometry = false
  /\ is_in_travis_county_try no_geometry = Ok false
  /\ is_in_travis_county no_geometry = false.
Proof. repeat split. Qed.

Example austin_is_in_region :
  positions (map as_position austin_ring) = Some (map (fun xy => (Qred (fst xy), Qred (snd xy))) austin_ring)
  /\ is_in_travis_county austin = true
  /\ is_in_travis_county houston = false.
Proof. repeat split. Qed.


(** ** Properties of the extractor *)

Section ScanFacts.

Variable loads : string -> option json.
Variable max : Z.

Lemma scan_cons st raw rest :
  scan loads max st (raw :: rest) = resume loads max (step loads max st raw) rest.
Proof. simpl; destruct (step loads max st raw); reflexivity. Qed.

(** Before a line with the features key has been met by the loop itself,
    a pass changes nothing. *)
Lemma step_outside_features st raw :
  in_features st = false ->
  Str.contains features_key (Str.strip raw) = false ->
  step loads max st raw = Next st.
Proof.
  intros Hin Hkey; unfold step; rewrite Hkey, Hin; reflexivity.
Qed.

Lemma scan_outside_features f :
  forall st,
    in_features st = false ->
    Forall (fun raw => Str.contains features_key (Str.strip raw) = false) f ->
    scan loads max st f = (st, []).
Proof.
  induction f as [|raw f IH]; intros st Hin Hall; [reflexivity|].
  inversion Hall as [|? ? Hraw Hrest]; subst.
  rewrite scan_cons, (step_outside_features _ _ Hin Hraw); simpl.
  apply IH; assumption.
Qed.

Lemma seek_features_missing f :
  forall line,
    (forall l, In l (line :: f) -> Str.contains features_key l = false) ->
    fst (seek_features line f) = EmptyString.
Proof.
  induction f as [|l f IH]; intros line Hall; simpl.
  - rewrite (Hall line (or_introl eq_refl)); simpl.
    destruct line; reflexivity.
  - rewrite (Hall line (or_introl eq_refl)); simpl.
    destruct line as [|c line]; [reflexivity|]; simpl.
    apply IH; intros l' Hl'; apply Hall; right; exact Hl'.
Qed.

End ScanFacts.

(** C7, with the tag looked for on the trimmed first line.  When the
    first line, trimmed of surrounding whitespace, does not begin with
    the feature-collection tag, or no line of the file carries the features
    key, the run ends with a format error: nothing is scanned and no output
    file is written. *)
Theorem C7_format_error_no_output
  (loads : string -> option json) (max : Z) (f : list string) :
  Str.startswith collection_tag (Str.strip (hd EmptyString f)) = false
  \/ (forall l, In l f -> Str.contains features_key l = false) ->
  let r := process_texas_geojson loads max f in
  (status r = NotFeatureCollection \/ status r = NoFeaturesArray)
  /\ output_file r = None
  /\ final r = initial_state.
Proof.
  intros H r; subst r; unfold process_texas_geojson.
  destruct f as [|first f1]; simpl.
  - auto.
  - simpl in H.
    destruct (Str.startswith collection_tag (Str.strip first)) eqn:Htag;
      simpl; [|auto].
    destruct H as [H|H]; [discriminate|].
    pose proof (seek_features_missing f1 first H) as Hseek.
    destruct (seek_features first f1) as [line' f2]; simpl in Hseek.
    subst line'; simpl; auto.
Qed.

(** A file whose first line is not the tag, and a file without the key. *)
Lemma C7_format_error_witness :
  (let r := process_texas_geojson RefJson.loads 5000
              (file_of ["{'type':'Feature'}"; "'features': ["; "]"]) in
   (status r = NotFeatureCollection \/ status r = NoFeaturesArray)
   /\ output_file r = None /\ final r = initial_state)
  /\ (let r := process_texas_geojson RefJson.loads 5000
                 (file_of ["{'type':'FeatureCollection',"; "'items': ["; "]"])
      in
      (status r = NotFeatureCollection \/ status r = NoFeaturesArray)
      /\ output_file r = None /\ final r = initial_state).
Proof.
  split.
  - apply C7_format_error_no_output; left; reflexivity.
  - apply C7_format_error_no_output; right.
    intros l Hl; simpl in Hl.
    destruct Hl as [<-|[<-|[<-|[]]]]; reflexivity.
Defined.

(** A first line that begins with two spaces does not begin with the tag,
    and the run goes through: it writes an output file. *)
Lemma C7_indented_first_line_accepted :
  let r := process_texas_geojson RefJson.loads 5000 indented_file in
  Str.startswith collection_tag (hd EmptyString indented_file) = false
  /\ status r = Saved
  /\ output_file r
     = Some (JObject [("type", JStr "FeatureCollection");
                      ("features", JArray [austin; pflugerville])]).
Proof. cbv zeta; repeat split; vm_compute; reflexivity. Qed.

(** The shape of one pass, for every cap at once: nothing is kept, or the
    scan breaks at a closing bracket, or one decoded in-region feature is
    appended and the cap decides between going on and stopping. *)
Section CapFacts.

Variable loads : string -> option json.

Lemma complete_feature_cases st :
  (exists s, unchanged_count st s
             /\ forall c, complete_feature loads c st = Next s)
  \/ (exists v sN,
        loads (strip_trailing_comma (feature_buffer st)) = Some v
        /\ is_in_travis_county v = true
        /\ kept_one st v sN
        /\ forall c,
            ((found_count st + 1 < c)%Z ->
             complete_feature loads c st = Next sN)
            /\ ((c <= found_count st + 1)%Z ->
                exists sB, complete_feature loads c st = Break sB
                           /\ kept_one st v sB)).
Proof.
  unfold complete_feature.
  destruct (loads (strip_trailing_comma (feature_buffer st))) as [v|] eqn:Hv.
  - destruct (is_in_travis_county v) eqn:Hin.
    + right; exists v.
      match goal with |- context [Next ?sN] => exists sN end.
      split; [reflexivity|]; split; [exact Hin|].
      split; [split; reflexivity|].
      intros c; split; intros Hc.
      * replace (found_count st + 1 >=? c)%Z with false by lia.
        reflexivity.
      * replace (found_count st + 1 >=? c)%Z with true by lia.
        eexists; split; [reflexivity|split; reflexivity].
    + left.
      match goal with |- context [Next ?s] => exists s end.
      split; [split|]; reflexivity.
  - left.
    match goal with |- context [Next ?s] => exists s end.
    split; [split|]; reflexivity.
Qed.

Lemma assemble_unchanged st line : unchanged_count st (assemble st line).
Proof.
  unfold assemble, unchanged_count.
  destruct (Str.startswith "{" line); simpl; auto.
Qed.

Lemma step_cases st raw :
  (exists s, unchanged_count st s /\ forall c, step loads c st raw = Next s)
  \/ (forall c, step loads c st raw = Break st)
  \/ (exists v text sN,
        loads text = Some v
        /\ is_in_travis_county v = true
        /\ kept_one st v sN
        /\ forall c,
            ((found_count st + 1 < c)%Z -> step loads c st raw = Next sN)
            /\ ((c <= found_count st + 1)%Z ->
                exists sB, step loads c st raw = Break sB
                           /\ kept_one st v sB)).
Proof.
  unfold step.
  destruct (Str.contains features_key (Str.strip raw)).
  { left; eexists; split; [|reflexivity]; split; reflexivity. }
  destruct (in_features st); simpl.
  2:{ left; exists st; split; [split|]; reflexivity. }
  destruct (Str.startswith "[" (Str.strip raw)).
  { left; exists st; split; [split|]; reflexivity. }
  destruct (Str.startswith "]" (Str.strip raw)).
  { right; left; reflexivity. }
  pose proof (assemble_unchanged st (Str.strip raw)) as [Hk Hf].
  unfold check_complete.
  destruct ((brace_count (assemble st (Str.strip raw)) =? 0)%Z
            && Str.nonempty (feature_buffer (assemble st (Str.strip raw)))).
  2:{ left; eexists; split; [|reflexivity]; split; assumption. }
  destruct (complete_feature_cases (assemble st (Str.strip raw)))
    as [(s & [Hs1 Hs2] & Hs)|(v & sN & Hv & Hin & [HN1 HN2] & Hc)].
  - left; exists s; split; [split; congruence|exact Hs].
  - right; right; exists v; eexists; exists sN.
    split; [exact Hv|]; split; [exact Hin|].
    split; [split; congruence|].
    intros c; destruct (Hc c) as [HcN HcB]; split.
    + intros Hlt; apply HcN; lia.
    + intros Hle; destruct HcB as (sB & HsB & [HB1 HB2]); [lia|].
      exists sB; split; [exact HsB|split; congruence].
Qed.

Lemma scan_invariant c f :
  forall st,
    counted st ->
    Forall (decoded_in_region loads) (travis_buildings st) ->
    let s := fst (scan loads c st f) in
    counted s
    /\ Forall (decoded_in_region loads) (travis_buildings s)
    /\ exists more, travis_buildings s = travis_buildings st ++ more.
Proof.
  induction f as [|raw f IH]; intros st Hcnt Hall; simpl.
  - repeat split; [assumption|assumption|exists []; symmetry; apply app_nil_r].
  - assert (Hstep :
      forall s', step loads c st raw = Next s' \/ step loads c st raw = Break s' ->
        counted s' /\ Forall (decoded_in_region loads) (travis_buildings s')
        /\ exists more, travis_buildings s' = travis_buildings st ++ more).
    { intros s' Hs'.
      destruct (step_cases st raw)
        as [(s & [Hk Hf] & Hs)|[Hb|(v & text & sN & Hv & Hin & [HN1 HN2] & Hc)]].
      - rewrite Hs in Hs'; destruct Hs' as [E|E]; [|discriminate].
        injection E as <-; unfold counted in *; rewrite Hk, Hf.
        repeat split; [assumption|assumption|exists []; symmetry; apply app_nil_r].
      - rewrite Hb in Hs'; destruct Hs' as [E|E]; [discriminate|].
        injection E as <-.
        repeat split; [assumption|assumption|exists []; symmetry; apply app_nil_r].
      - assert (Hone : kept_one st v s').
        { destruct (Hc c) as [HcN HcB].
          destruct (Z_lt_le_dec (found_count st + 1) c) as [Hlt|Hle].
          - rewrite (HcN Hlt) in Hs'; destruct Hs' as [E|E]; [|discriminate].
            injection E as <-; split; assumption.
          - destruct (HcB Hle) as (sB & HsB & HB).
            rewrite HsB in Hs'; destruct Hs' as [E|E]; [discriminate|].
            injection E as <-; exact HB. }
        destruct Hone as [H1 H2]; unfold counted in *; rewrite H1, H2.
        repeat split.
        + rewrite length_app; simpl; lia.
        + apply Forall_app; split; [assumption|].
          constructor; [|constructor]; split; [exact Hin|exists text; exact Hv].
        + exists [v]; reflexivity. }
    destruct (step loads c st raw) as [s'|s'] eqn:E.
    + destruct (Hstep s' (or_introl eq_refl)) as (H1 & H2 & more & H3).
      destruct (IH s' H1 H2) as (H4 & H5 & more' & H6).
      repeat split; [exact H4|exact H5|].
      exists (more ++ more'); rewrite H6, H3, app_assoc; reflexivity.
    + simpl; apply Hstep; right; reflexivity.
Qed.

(** Below the cap a pass stays at or below it, and goes on only while
    the cap is not reached. *)
Lemma step_below_cap c st raw :
  (found_count st < c)%Z ->
  match step loads c st raw with
  | Next s => (found_count s < c)%Z
  | Break s => (found_count s <= c)%Z
  end.
Proof.
  intros Hlt.
  destruct (step_cases st raw)
    as [(s & [Hk Hf] & Hs)|[Hb|(v & text & sN & Hv & Hin & [HN1 HN2] & Hc)]].
  - rewrite Hs, Hf; exact Hlt.
  - rewrite Hb; lia.
  - destruct (Hc c) as [HcN HcB].
    destruct (Z_lt_le_dec (found_count st + 1) c) as [H|H].
    + rewrite (HcN H), HN2; exact H.
    + destruct (HcB H) as (sB & -> & [HB1 HB2]); rewrite HB2; lia.
Qed.

Lemma scan_below_cap c f :
  forall st,
    (found_count st < c)%Z ->
    (found_count (fst (scan loads c st f)) <= c)%Z.
Proof.
  induction f as [|raw f IH]; intros st Hlt; simpl; [lia|].
  pose proof (step_below_cap c st raw Hlt) as H.
  destruct (step loads c st raw) as [s|s]; [apply IH; exact H|exact H].
Qed.

(** The lines left unread are a suffix of the input, and the lines read
    alone give the same final state. *)
Lemma scan_unread_split c f :
  forall st st' u,
    scan loads c st f = (st', u) ->
    exists pre, f = pre ++ u /\ scan loads c st pre = (st', []).
Proof.
  induction f as [|raw f IH]; intros st st' u H; simpl in H.
  - injection H as <- <-; exists []; split; reflexivity.
  - destruct (step loads c st raw) as [s|s] eqn:E.
    + destruct (IH _ _ _ H) as (pre & -> & Hpre).
      exists (raw :: pre); split; [reflexivity|].
      simpl; rewrite E; exact Hpre.
    + injection H as <- <-.
      exists [raw]; split; [reflexivity|].
      simpl; rewrite E; reflexivity.
Qed.

(** Once the cap is reached nothing that follows is read. *)
Lemma scan_stops_at_cap c pre :
  forall st st' u rest,
    scan loads c st pre = (st', u) ->
    (found_count st < c)%Z ->
    (c <= found_count st')%Z ->
    scan loads c st (pre ++ rest) = (st', u ++ rest).
Proof.
  induction pre as [|raw pre IH]; intros st st' u rest H Hlt Hge; simpl in H.
  - injection H as <- <-; lia.
  - simpl.
    pose proof (step_below_cap c st raw Hlt) as Hstep.
    destruct (step loads c st raw) as [s|s].
    + apply IH; assumption.
    + injection H as <- <-; reflexivity.
Qed.

Lemma seek_features_split f :
  forall line line' f2,
    seek_features line f = (line', f2) ->
    Str.nonempty line' = true ->
    exists pre,
      f = pre ++ f2
      /\ forall rest, seek_features line (pre ++ rest) = (line', rest).
Proof.
  induction f as [|l f IH]; intros line line' f2 H Hne.
  - exists []; simpl in *.
    destruct (Str.nonempty line && negb (Str.contains features_key line))
      eqn:E.
    + injection H as <- <-; discriminate.
    + injection H as <- <-; split; [reflexivity|].
      intros rest; destruct rest; simpl; rewrite E; reflexivity.
  - simpl in H.
    destruct (Str.nonempty line && negb (Str.contains features_key line))
      eqn:E.
    + destruct (IH _ _ _ H Hne) as (pre & -> & Hpre).
      exists (l :: pre); split; [reflexivity|].
      intros rest; simpl; rewrite E; apply Hpre.
    + injection H as <- <-.
      exists []; split; [reflexivity|].
      intros rest; destruct rest; simpl; rewrite E; reflexivity.
Qed.

Lemma seek_features_length f :
  forall line, (List.length (snd (seek_features line f)) <= List.length f)%nat.
Proof.
  induction f as [|l f IH]; intros line; simpl.
  - destruct (Str.nonempty line && negb (Str.contains features_key line));
      simpl; lia.
  - destruct (Str.nonempty line && negb (Str.contains features_key line));
      simpl; [|lia].
    specialize (IH l); lia.
Qed.

(** A run that passes the two format checks is the scan of the lines
    after the one that carries the features key. *)
Lemma process_scan c first f1 line f2 :
  Str.startswith collection_tag (Str.strip first) = true ->
  seek_features first f1 = (line, f2) ->
  Str.nonempty line = true ->
  process_texas_geojson loads c (first :: f1) =
  let st := fst (scan loads c initial_state f2) in
  let u := snd (scan loads c initial_state f2) in
  if (found_count st =? 0)%Z then mkRun NoBuildings st u None
  else mkRun Saved st u (Some (output_geojson st)).
Proof.
  intros Htag Hseek Hne; unfold process_texas_geojson; simpl.
  rewrite Htag, Hseek, Hne; simpl.
  destruct (scan loads c initial_state f2); reflexivity.
Qed.

(** The two ways a run goes: a format error, or the scan. *)
Lemma process_cases f :
  (forall c, final (process_texas_geojson loads c f) = initial_state
             /\ output_file (process_texas_geojson loads c f) = None)
  \/ (exists first f1 line f2,
        f = first :: f1
        /\ Str.startswith collection_tag (Str.strip first) = true
        /\ seek_features first f1 = (line, f2)
        /\ Str.nonempty line = true).
Proof.
  unfold process_texas_geojson.
  destruct f as [|first f1]; simpl; [left; intros c; split; reflexivity|].
  destruct (Str.startswith collection_tag (Str.strip first)) eqn:Htag; simpl;
    [|left; intros c; split; reflexivity].
  destruct (seek_features first f1) as [line f2] eqn:Hseek.
  destruct (Str.nonempty line) eqn:Hne; simpl;
    [|left; intros c; split; reflexivity].
  right; exists first, f1, line, f2; auto.
Qed.

Lemma final_of_scan (b : bool) st u x y s s' :
  final (if b then mkRun s st u x else mkRun s' st u y) = st.
Proof. destruct b; reflexivity. Qed.

Lemma unread_of_scan (b : bool) st u x y s s' :
  unread (if b then mkRun s st u x else mkRun s' st u y) = u.
Proof. destruct b; reflexivity. Qed.

Lemma counted_initial : counted initial_state.
Proof. reflexivity. Qed.

Lemma process_invariant c f :
  counted (final (process_texas_geojson loads c f))
  /\ Forall (decoded_in_region loads)
       (travis_buildings (final (process_texas_geojson loads c f))).
Proof.
  destruct (process_cases f)
    as [Herr|(first & f1 & line & f2 & -> & Htag & Hseek & Hne)].
  - destruct (Herr c) as [-> _]; split; [reflexivity|constructor].
  - rewrite (process_scan c _ _ _ _ Htag Hseek Hne); cbv zeta.
    rewrite final_of_scan.
    destruct (scan_invariant c f2 initial_state counted_initial)
      as (H1 & H2 & _); [constructor|]; auto.
Qed.

Lemma scan_extends c f :
  forall st,
    exists more,
      travis_buildings (fst (scan loads c st f)) = travis_buildings st ++ more.
Proof.
  induction f as [|raw f IH]; intros st; simpl.
  - exists []; symmetry; apply app_nil_r.
  - destruct (step_cases st raw)
      as [(s & [Hk Hf] & Hs)|[Hb|(v & text & sN & Hv & Hin & [HN1 HN2] & Hc)]].
    + rewrite Hs; destruct (IH s) as (more & ->).
      exists more; rewrite Hk; reflexivity.
    + rewrite Hb; exists []; symmetry; apply app_nil_r.
    + destruct (Hc c) as [HcN HcB].
      destruct (Z_lt_le_dec (found_count st + 1) c) as [H|H].
      * rewrite (HcN H); destruct (IH sN) as (more & ->).
        exists (v :: more); rewrite HN1, <- app_assoc; reflexivity.
      * destruct (HcB H) as (sB & -> & [HB1 HB2]).
        exists [v]; exact HB1.
Qed.

(** A run with cap [m] keeps a prefix of what a run with a cap [M] out of
    reach keeps: the first [max 1 m] of them. *)
Lemma scan_capped_prefix m M f :
  forall st,
    counted st ->
    (found_count st < Z.max 1 m)%Z ->
    (found_count st + Z.of_nat (List.length f) < M)%Z ->
    travis_buildings (fst (scan loads m st f)) =
    firstn (Z.to_nat (Z.max 1 m))
      (travis_buildings (fst (scan loads M st f))).
Proof.
  induction f as [|raw f IH]; intros st Hcnt Hlt HM; unfold counted in *.
  - simpl; symmetry; apply firstn_all2; lia.
  - simpl in HM; simpl scan.
    destruct (step_cases st raw)
      as [(s & [Hk Hf] & Hs)|[Hb|(v & text & sN & Hv & Hin & [HN1 HN2] & Hc)]].
    + rewrite !Hs; apply IH; unfold counted; rewrite ?Hk, ?Hf; lia.
    + rewrite !Hb; simpl; symmetry; apply firstn_all2; lia.
    + destruct (Hc M) as [HMN _]; rewrite HMN by lia.
      destruct (Hc m) as [HmN HmB].
      destruct (Z_lt_le_dec (found_count st + 1) m) as [H|H].
      * rewrite (HmN H); apply IH; unfold counted; rewrite ?HN1, ?HN2.
        -- rewrite length_app; simpl; lia.
        -- lia.
        -- lia.
      * destruct (HmB H) as (sB & -> & [HB1 HB2]); simpl.
        destruct (scan_extends M f sN) as (more & ->).
        rewrite HB1, HN1.
        replace (Z.to_nat (Z.max 1 m))
          with (List.length (travis_buildings st ++ [v]))
          by (rewrite length_app; simpl; lia).
        rewrite firstn_app, firstn_all, Nat.sub_diag; simpl.
        rewrite app_nil_r; reflexivity.
Qed.

Lemma process_capped_prefix m f :
  travis_buildings (final (process_texas_geojson loads m f)) =
  firstn (Z.to_nat (Z.max 1 m)) (in_region_features loads f).
Proof.
  unfold in_region_features.
  destruct (process_cases f)
    as [Herr|(first & f1 & line & f2 & -> & Htag & Hseek & Hne)].
  - destruct (Herr m) as [-> _].
    destruct (Herr (out_of_reach f)) as [-> _].
    simpl; rewrite firstn_nil; reflexivity.
  - rewrite !(process_scan _ _ _ _ _ Htag Hseek Hne); cbv zeta.
    rewrite !final_of_scan.
    apply scan_capped_prefix; [reflexivity|simpl; lia|].
    pose proof (seek_features_length f1 first) as Hlen.
    rewrite Hseek in Hlen; simpl in Hlen.
    unfold out_of_reach; simpl List.length; simpl found_count; lia.
Qed.

(** The definition of the in-region features does not depend on the cap
    chosen, as long as it is out of reach. *)
Lemma scan_found_le c f :
  forall st,
    (found_count (fst (scan loads c st f))
     <= found_count st + Z.of_nat (List.length f))%Z.
Proof.
  induction f as [|raw f IH]; intros st; simpl scan; [simpl; lia|].
  simpl List.length.
  destruct (step_cases st raw)
    as [(s & [Hk Hf] & Hs)|[Hb|(v & text & sN & Hv & Hin & [HN1 HN2] & Hc)]].
  - rewrite Hs; specialize (IH s); lia.
  - rewrite Hb; simpl; lia.
  - destruct (Hc c) as [HcN HcB].
    destruct (Z_lt_le_dec (found_count st + 1) c) as [H|H].
    + rewrite (HcN H); specialize (IH sN); lia.
    + destruct (HcB H) as (sB & -> & [HB1 HB2]); simpl; lia.
Qed.

Lemma in_region_features_length f :
  (List.length (in_region_features loads f) <= List.length f)%nat.
Proof.
  unfold in_region_features.
  destruct (process_invariant (out_of_reach f) f) as [Hcnt _].
  unfold counted in Hcnt.
  destruct (process_cases f)
    as [Herr|(first & f1 & line & f2 & -> & Htag & Hseek & Hne)].
  - destruct (Herr (out_of_reach f)) as [-> _]; simpl; lia.
  - revert Hcnt.
    rewrite (process_scan _ _ _ _ _ Htag Hseek Hne); cbv zeta.
    rewrite final_of_scan; intros Hcnt.
    pose proof (scan_found_le (out_of_reach (first :: f1)) f2 initial_state)
      as Hle.
    pose proof (seek_features_length f1 first) as Hlen.
    rewrite Hseek in Hlen; simpl in Hlen, Hle; simpl List.length; lia.
Qed.

Lemma in_region_features_large_cap c f :
  (out_of_reach f <= c)%Z ->
  travis_buildings (final (process_texas_geojson loads c f))
  = in_region_features loads f.
Proof.
  intros Hc; rewrite process_capped_prefix; apply firstn_all2.
  pose proof (in_region_features_length f); unfold out_of_reach in Hc; lia.
Qed.

End CapFacts.

(** C3, for a cap of at least 1.  The kept counter never exceeds the cap
    and counts the kept buildings;
    and when it reaches the cap the scan has stopped at that line: the
    lines after it are left unread, and the run is the same whatever they
    are. *)
Theorem C3_cap_respected
  (loads : string -> option json) (max : Z) (f : list string) :
  (1 <= max)%Z ->
  let r := process_texas_geojson loads max f in
  (found_count (final r) <= max)%Z
  /\ Z.of_nat (List.length (travis_buildings (final r))) = found_count (final r)
  /\ ((max <= found_count (final r))%Z ->
      exists pre,
        f = pre ++ unread r
        /\ forall rest,
            process_texas_geojson loads max (pre ++ rest) =
            mkRun (status r) (final r) rest (output_file r)).
Proof.
  intros Hmax r.
  destruct (process_invariant loads max f) as [Hcnt _]; fold r in Hcnt.
  split; [|split; [symmetry; exact Hcnt|]].
  - subst r.
    destruct (process_cases loads f)
      as [Herr|(first & f1 & line & f2 & -> & Htag & Hseek & Hne)].
    + destruct (Herr max) as [-> _]; simpl; lia.
    + rewrite (process_scan loads max _ _ _ _ Htag Hseek Hne); cbv zeta.
      rewrite final_of_scan.
      apply scan_below_cap; simpl; lia.
  - subst r.
    destruct (process_cases loads f)
      as [Herr|(first & f1 & line & f2 & -> & Htag & Hseek & Hne)].
    + destruct (Herr max) as [-> _]; simpl; lia.
    + rewrite (process_scan loads max _ _ _ _ Htag Hseek Hne); cbv zeta.
      rewrite final_of_scan, unread_of_scan.
      destruct (scan loads max initial_state f2) as [st u] eqn:Hscan; simpl.
      intros Hge.
      destruct (scan_unread_split loads max _ _ _ _ Hscan)
        as (pre2 & -> & Hpre2).
      destruct (seek_features_split _ _ _ _ Hseek Hne) as (pre1 & -> & Hpre1).
      exists (first :: pre1 ++ pre2); split.
      * simpl; rewrite app_assoc; reflexivity.
      * intros rest.
        pose proof (scan_stops_at_cap loads max pre2 initial_state st []
                      rest Hpre2) as Hstop.
        simpl in Hstop; specialize (Hstop ltac:(lia) Hge).
        replace ((first :: pre1 ++ pre2) ++ rest)
          with (first :: pre1 ++ (pre2 ++ rest))
          by (simpl; rewrite app_assoc; reflexivity).
        rewrite (process_scan loads max _ _ _ _ Htag (Hpre1 _) Hne); cbv zeta.
        rewrite Hstop; simpl.
        destruct (found_count st =? 0)%Z; reflexivity.
Qed.

(** With a cap of 2 the third qualifying line is never reached. *)
Lemma C3_cap_respected_witness :
  (1 <= 2)%Z
  /\ (let r := process_texas_geojson RefJson.loads 2 two_key_file in
      (found_count (final r) <= 2)%Z
      /\ Z.of_nat (List.length (travis_buildings (final r)))
         = found_count (final r)
      /\ ((2 <= found_count (final r))%Z ->
          exists pre,
            two_key_file = pre ++ unread r
            /\ forall rest,
                process_texas_geojson RefJson.loads 2 (pre ++ rest) =
                mkRun (status r) (final r) rest (output_file r))).
Proof.
  split; [lia|apply (C3_cap_respected RefJson.loads 2 two_key_file); lia].
Defined.

(** With a cap of zero the first in-region building is still kept: the cap
    is tested only after a building has been appended. *)
Lemma C3_cap_zero_keeps_one :
  let r := process_texas_geojson RefJson.loads 0 two_key_file in
  travis_buildings (final r) = [austin]
  /\ found_count (final r) = 1%Z
  /\ ~ (found_count (final r) <= 0)%Z.
Proof.
  assert (E : final (process_texas_geojson RefJson.loads 0 two_key_file)
              = mkScan true austin_text 0 [austin] 1 1 [PrintReachedMax 0]).
  { vm_compute; reflexivity. }
  cbv zeta; rewrite E; simpl; repeat split; lia.
Qed.

(** The file with two in-region buildings: all of them, and the one a cap
    of 1 lets through. *)
Example in_region_features_two_key_file :
  in_region_features RefJson.loads two_key_file = [austin; pflugerville]
  /\ travis_buildings
       (final (process_texas_geojson RefJson.loads 1 two_key_file))
     = [austin]
  /\ output_file (process_texas_geojson RefJson.loads 1 two_key_file)
     = Some (JObject [("type", JStr "FeatureCollection");
                      ("features", JArray [austin])]).
Proof. repeat split; vm_compute; reflexivity. Qed.

(** ** The array scan, line by line *)

Lemma append_empty_r (s : string) : (s ++ EmptyString)%string = s.
Proof. induction s as [|c s IH]; simpl; [|rewrite IH]; reflexivity. Qed.

Lemma append_assoc (a b c : string) :
  ((a ++ b) ++ c)%string = (a ++ (b ++ c))%string.
Proof. induction a as [|x a IH]; simpl; [|rewrite IH]; reflexivity. Qed.

Lemma nonempty_append (a b : string) :
  Str.nonempty a = true -> Str.nonempty (a ++ b) = true.
Proof. destruct a; [discriminate|reflexivity]. Qed.

Lemma startswith_brace (line : string) :
  Str.startswith "{" line = true ->
  Str.startswith "[" line = false
  /\ Str.startswith "]" line = false
  /\ Str.nonempty line = true.
Proof.
  destruct line as [|a line]; [discriminate|].
  unfold Str.startswith; intros H.
  apply prefix_correct in H; simpl in H.
  injection H as -> _; repeat split.
Qed.

Section StreamFacts.

Variable loads : string -> option json.
Variable max : Z.

Lemma scan_continuation_lines more :
  forall st rest,
    in_features st = true ->
    Str.nonempty (feature_buffer st) = true ->
    brace_count st <> 0%Z ->
    continuation_lines (brace_count st) more = true ->
    scan loads max st (more ++ rest) =
    resume loads max
      (complete_feature loads max
         (set_buffer st (feature_buffer st ++ feature_text more) 0))
      rest.
Proof.
  induction more as [|raw more IH]; intros st rest Hin Hbuf Hcount Hlines.
  - simpl in Hlines; apply Z.eqb_eq in Hlines; contradiction.
  - simpl in Hlines.
    repeat (apply andb_true_iff in Hlines; destruct Hlines as [Hlines ?]).
    rewrite !negb_true_iff in *.
    simpl app; rewrite scan_cons; unfold step.
    rewrite H3, Hin, H2, H1; simpl negb; cbv iota.
    unfold assemble; rewrite H0; unfold check_complete; simpl.
    rewrite (nonempty_append _ (Str.strip raw) Hbuf), andb_true_r.
    destruct (brace_count st + brace_delta (Str.strip raw) =? 0)%Z eqn:E.
    + apply Z.eqb_eq in E; rewrite E in *.
      destruct more as [|raw' more]; [|discriminate].
      simpl; rewrite append_empty_r; reflexivity.
    + apply Z.eqb_neq in E; unfold resume at 1.
      rewrite (IH (set_buffer st (feature_buffer st ++ Str.strip raw)
                     (brace_count st + brace_delta (Str.strip raw))) rest
                 Hin (nonempty_append _ _ Hbuf) E H).
      simpl; rewrite append_assoc; reflexivity.
Qed.

(** Reading the lines of one object leaves its whole text in the buffer
    with a brace count of zero, and hands it to the decoder. *)
Lemma scan_feature_lines lines st rest :
  in_features st = true ->
  feature_lines lines = true ->
  scan loads max st (lines ++ rest) =
  resume loads max
    (complete_feature loads max (set_buffer st (feature_text lines) 0))
    rest.
Proof.
  intros Hin Hlines.
  destruct lines as [|raw more]; [discriminate|]; simpl in Hlines.
  apply andb_true_iff in Hlines; destruct Hlines as [Hlines Hmore].
  apply andb_true_iff in Hlines; destruct Hlines as [Hopen Hkey].
  rewrite negb_true_iff in Hkey.
  destruct (startswith_brace _ Hopen) as (Hb1 & Hb2 & Hne).
  simpl app; rewrite scan_cons; unfold step.
  rewrite Hkey, Hin, Hb1, Hb2; simpl negb; cbv iota.
  unfold assemble; rewrite Hopen; unfold check_complete; simpl.
  rewrite Hne, andb_true_r.
  destruct (brace_delta (Str.strip raw) =? 0)%Z eqn:E.
  - apply Z.eqb_eq in E; rewrite E in *.
    destruct more as [|raw' more]; [|discriminate].
    simpl; rewrite append_empty_r; reflexivity.
  - apply Z.eqb_neq in E; unfold resume at 1.
    rewrite (scan_continuation_lines more
               (set_buffer st (Str.strip raw) (brace_delta (Str.strip raw)))
               rest Hin Hne E Hmore).
    reflexivity.
Qed.

(** A completed buffer that decodes, with the cap out of the way. *)
Lemma complete_feature_decoded st v :
  loads (strip_trailing_comma (feature_buffer st)) = Some v ->
  (found_count st + 1 < max)%Z ->
  exists s,
    complete_feature loads max st = Next s
    /\ in_features s = in_features st
    /\ feature_buffer s = EmptyString
    /\ travis_buildings s =
       travis_buildings st ++ filter is_in_travis_county [v]
    /\ total_features s = (total_features st + 1)%Z
    /\ (found_count st <= found_count s <= found_count st + 1)%Z
    /\ exists log, printed s = printed st ++ log.
Proof.
  intros Hv Hcap; unfold complete_feature; rewrite Hv; simpl.
  destruct (is_in_travis_county v).
  - replace (found_count st + 1 >=? max)%Z with false by lia.
    eexists; split; [reflexivity|]; simpl.
    repeat split; try lia.
    destruct ((found_count st + 1) mod 100 =? 0)%Z;
      eexists; rewrite <- ?app_assoc; reflexivity.
  - eexists; split; [reflexivity|]; simpl.
    rewrite app_nil_r; repeat split; try lia.
    eexists; reflexivity.
Qed.

(** A completed buffer that does not decode. *)
Lemma complete_feature_failed st :
  loads (strip_trailing_comma (feature_buffer st)) = None ->
  exists s,
    complete_feature loads max st = Next s
    /\ in_features s = in_features st
    /\ feature_buffer s = strip_trailing_comma (feature_buffer st)
    /\ brace_count s = brace_count st
    /\ travis_buildings s = travis_buildings st
    /\ total_features s = total_features st
    /\ found_count s = found_count st
    /\ printed s =
       printed st
       ++ [PrintParseError (strip_trailing_comma (feature_buffer st))].
Proof.
  intros Hv; unfold complete_feature; rewrite Hv.
  eexists; split; [reflexivity|]; simpl; repeat split.
Qed.

(** Once the loop has met the features key itself, objects that follow one
    another, each on its own lines and each decoding, are all counted, and
    those in region are kept in file order, as long as the cap is not
    reached. *)
Lemma scan_documented_features chunks :
  forall vs st rest,
    Forall2
      (fun lines v =>
         feature_lines lines = true
         /\ loads (strip_trailing_comma (feature_text lines)) = Some v)
      chunks vs ->
    in_features st = true ->
    (found_count st + Z.of_nat (List.length vs) < max)%Z ->
    exists st',
      scan loads max st (concat chunks ++ rest) = scan loads max st' rest
      /\ in_features st' = true
      /\ travis_buildings st' =
         travis_buildings st ++ filter is_in_travis_county vs
      /\ total_features st' =
         (total_features st + Z.of_nat (List.length vs))%Z
      /\ (found_count st' <= found_count st + Z.of_nat (List.length vs))%Z.
Proof.
  induction chunks as [|lines chunks IH]; intros vs st rest Hall Hin Hcap.
  - inversion Hall; subst; exists st; simpl.
    rewrite app_nil_r; repeat split; try assumption; lia.
  - inversion Hall as [|? v ? vs' [Hlines Hv] Hrest]; subst.
    simpl List.length in *.
    destruct (complete_feature_decoded
                (set_buffer st (feature_text lines) 0) v Hv)
      as (s1 & E1 & I1 & B1 & K1 & T1 & F1 & _); [simpl; lia|].
    simpl in I1, K1, T1, F1.
    destruct (IH vs' s1 rest Hrest ltac:(congruence) ltac:(lia))
      as (st' & Hscan & Hin' & Hk & Ht & Hf).
    exists st'; split; [|split; [exact Hin'|split; [|split]]].
    + simpl concat; rewrite <- app_assoc.
      rewrite (scan_feature_lines lines st _ Hin Hlines), E1.
      exact Hscan.
    + rewrite Hk, K1, <- app_assoc; simpl.
      destruct (is_in_travis_county v); reflexivity.
    + lia.
    + lia.
Qed.

End StreamFacts.

(** C8, for a broken object that keeps to lines of its own.  In the array
    scan, with the cap out of the way: when the lines of a well-formed
    object, of an object whose completed text does not decode (braces
    balanced, first line opening with a brace, no other line opening with a
    bracket or a brace or carrying the features key), and of another
    well-formed object follow one another, both neighbours
    are decoded, counted and kept when in region, in this order; the middle
    one only leaves a parse diagnostic; and the scan goes on with the lines
    that follow. *)
Theorem C8_malformed_feature_is_isolated
  (loads : string -> option json) (max : Z) (st : scan_state)
  (before broken after rest : list string) (fa fb : json) :
  in_features st = true ->
  feature_lines before = true ->
  feature_lines broken = true ->
  feature_lines after = true ->
  loads (strip_trailing_comma (feature_text before)) = Some fa ->
  loads (strip_trailing_comma (feature_text broken)) = None ->
  loads (strip_trailing_comma (feature_text after)) = Some fb ->
  (found_count st + 2 < max)%Z ->
  exists st',
    scan loads max st (before ++ broken ++ after ++ rest)
    = scan loads max st' rest
    /\ travis_buildings st' =
       travis_buildings st ++ filter is_in_travis_county [fa; fb]
    /\ total_features st' = (total_features st + 2)%Z
    /\ In (PrintParseError (strip_trailing_comma (feature_text broken)))
         (printed st')
    /\ feature_buffer st' = EmptyString
    /\ in_features st' = true.
Proof.
  intros Hin HA HM HB Hfa Hm Hfb Hcap.
  destruct (complete_feature_decoded loads max
              (set_buffer st (feature_text before) 0) fa Hfa)
    as (s1 & E1 & I1 & B1 & K1 & T1 & F1 & log1 & L1); [simpl; lia|].
  destruct (complete_feature_failed loads max
              (set_buffer s1 (feature_text broken) 0) Hm)
    as (s2 & E2 & I2 & B2 & C2 & K2 & T2 & F2 & L2).
  assert (Hcap3 : (found_count (set_buffer s2 (feature_text after) 0) + 1
                   < max)%Z).
  { simpl in *; lia. }
  destruct (complete_feature_decoded loads max
              (set_buffer s2 (feature_text after) 0) fb Hfb Hcap3)
    as (s3 & E3 & I3 & B3 & K3 & T3 & F3 & log3 & L3).
  simpl in *.
  exists s3; repeat split.
  - rewrite (scan_feature_lines loads max before st _ Hin HA), E1.
    unfold resume at 1.
    rewrite (scan_feature_lines loads max broken s1 _
               ltac:(congruence) HM), E2.
    unfold resume at 1.
    rewrite (scan_feature_lines loads max after s2 _
               ltac:(congruence) HB), E3.
    reflexivity.
  - rewrite K3, K2, K1, <- app_assoc.
    destruct (is_in_travis_county fa), (is_in_travis_county fb); reflexivity.
  - lia.
  - rewrite L3, L2; apply in_or_app; left; apply in_or_app; right.
    left; reflexivity.
  - exact B3.
  - congruence.
Qed.

(** The broken two-line object between two in-region buildings. *)
Lemma C8_malformed_feature_is_isolated_witness :
  (in_features live_state = true
   /\ feature_lines austin_lines = true
   /\ feature_lines broken_lines = true
   /\ feature_lines pflugerville_lines = true
   /\ RefJson.loads (strip_trailing_comma (feature_text austin_lines))
      = Some austin
   /\ RefJson.loads (strip_trailing_comma (feature_text broken_lines)) = None
   /\ RefJson.loads (strip_trailing_comma (feature_text pflugerville_lines))
      = Some pflugerville
   /\ (found_count live_state + 2 < 5000)%Z)
  /\ exists st',
      scan RefJson.loads 5000 live_state
        (austin_lines ++ broken_lines ++ pflugerville_lines ++ closing_lines)
      = scan RefJson.loads 5000 st' closing_lines
      /\ travis_buildings st' =
         travis_buildings live_state
         ++ filter is_in_travis_county [austin; pflugerville]
      /\ total_features st' = (total_features live_state + 2)%Z
      /\ In (PrintParseError
               (strip_trailing_comma (feature_text broken_lines)))
           (printed st')
      /\ feature_buffer st' = EmptyString
      /\ in_features st' = true.
Proof.
  assert (H1 : feature_lines austin_lines = true) by (vm_compute; reflexivity).
  assert (H2 : feature_lines broken_lines = true) by (vm_compute; reflexivity).
  assert (H3 : feature_lines pflugerville_lines = true)
    by (vm_compute; reflexivity).
  assert (H4 : RefJson.loads (strip_trailing_comma (feature_text austin_lines))
               = Some austin) by (vm_compute; reflexivity).
  assert (H5 : RefJson.loads (strip_trailing_comma (feature_text broken_lines))
               = None) by (vm_compute; reflexivity).
  assert (H6 : RefJson.loads
                 (strip_trailing_comma (feature_text pflugerville_lines))
               = Some pflugerville) by (vm_compute; reflexivity).
  assert (H7 : (found_count live_state + 2 < 5000)%Z) by (simpl; lia).
  split; [repeat split; assumption|].
  exact (C8_malformed_feature_is_isolated RefJson.loads 5000 live_state
           austin_lines broken_lines pflugerville_lines closing_lines
           austin pflugerville eq_refl H1 H2 H3 H4 H5 H6 H7).
Defined.

(** The two loop states of the examples are met on the way: the first
    after the opening line of a feature that spans several lines, the
    second when the line with the broken object has been put in the
    buffer. *)
Example example_states_are_reached :
  step RefJson.loads 5000 live_state
    (Str.py "{'type':'Feature','properties':" ++ newline)
  = Next mid_feature
  /\ assemble live_state (with_comma broken_text) = at_broken
  /\ step RefJson.loads 5000 live_state (with_comma broken_text ++ newline)
     = check_complete RefJson.loads 5000 at_broken
  /\ scan RefJson.loads 5000 initial_state
       [(Str.py "'features':" ++ newline)%string]
     = (live_state, []).
Proof. repeat split; vm_compute; reflexivity. Qed.

(** C9, with the bracket tests on the first character of the line.
    In the array scan, for a trimmed line that does not carry the features
    key: a line that begins with an opening bracket is skipped, a line that
    begins with a closing bracket ends the scan, and any other line that
    does not begin with an opening brace is appended as it is to the
    feature-text buffer, the brace counter moving by its count of opening
    minus closing braces, before the completion test. *)
Theorem C9_line_dispatch
  (loads : string -> option json) (max : Z) (st : scan_state) (raw : string) :
  in_features st = true ->
  Str.contains features_key (Str.strip raw) = false ->
  let line := Str.strip raw in
  (Str.startswith "[" line = true -> step loads max st raw = Next st)
  /\ (Str.startswith "[" line = false ->
      Str.startswith "]" line = true ->
      step loads max st raw = Break st)
  /\ (Str.startswith "[" line = false ->
      Str.startswith "]" line = false ->
      Str.startswith "{" line = false ->
      step loads max st raw =
      check_complete loads max
        (set_buffer st (feature_buffer st ++ line)
           (brace_count st + brace_delta line))).
Proof.
  intros Hin Hkey line; subst line; unfold step; rewrite Hkey, Hin; simpl.
  repeat split.
  - intros ->; reflexivity.
  - intros -> ->; reflexivity.
  - intros -> -> H; unfold assemble; rewrite H; reflexivity.
Qed.

(** A lone bracket, a closing bracket, and a continuation line met in the
    middle of a feature. *)
Lemma C9_line_dispatch_witness :
  (in_features mid_feature = true
   /\ Str.contains features_key (Str.strip (Str.py "'geometry':null},"))
      = false)
  /\ (let raw := Str.py "'geometry':null}," in
      let line := Str.strip raw in
      (Str.startswith "[" line = true ->
       step RefJson.loads 5000 mid_feature raw = Next mid_feature)
      /\ (Str.startswith "[" line = false ->
          Str.startswith "]" line = true ->
          step RefJson.loads 5000 mid_feature raw = Break mid_feature)
      /\ (Str.startswith "[" line = false ->
          Str.startswith "]" line = false ->
          Str.startswith "{" line = false ->
          step RefJson.loads 5000 mid_feature raw =
          check_complete RefJson.loads 5000
            (set_buffer mid_feature (feature_buffer mid_feature ++ line)
               (brace_count mid_feature + brace_delta line)))).
Proof.
  split; [split; reflexivity|].
  apply (C9_line_dispatch RefJson.loads 5000 mid_feature
           (Str.py "'geometry':null},")); reflexivity.
Defined.

(** In the middle of a feature, a line that starts with an opening bracket
    and carries more is skipped, not appended; and a line that starts with
    a closing bracket and carries more ends the scan. *)
Lemma C9_bracket_line_with_content :
  let raw := ("[1, 2]," ++ newline)%string in
  let raw' := ("]}," ++ newline)%string in
  Str.strip raw <> "["
  /\ Str.startswith "{" (Str.strip raw) = false
  /\ step RefJson.loads 5000 mid_feature raw = Next mid_feature
  /\ feature_buffer (state_of (step RefJson.loads 5000 mid_feature raw))
     <> (feature_buffer mid_feature ++ Str.strip raw)%string
  /\ Str.strip raw' <> "]"
  /\ step RefJson.loads 5000 mid_feature raw' = Break mid_feature.
Proof.
  cbv zeta; repeat split; try (vm_compute; reflexivity);
    vm_compute; discriminate.
Qed.

(** C10, with the lines that are appended told apart from those that are
    not.  When a completed buffer does not decode, the buffer keeps
    the text that failed (less its trailing comma) with the brace counter at
    zero, and nothing is counted or kept.  Of the lines that follow and do
    not carry the features key: one that begins with an opening bracket
    leaves the stale buffer as it is, one that begins with an opening brace
    replaces it, and any other that does not begin with a closing bracket
    is appended to it. *)
Theorem C10_failed_buffer_persists
  (loads : string -> option json) (max : Z) (st : scan_state) :
  in_features st = true ->
  brace_count st = 0%Z ->
  Str.nonempty (feature_buffer st) = true ->
  loads (strip_trailing_comma (feature_buffer st)) = None ->
  exists st',
    check_complete loads max st = Next st'
    /\ feature_buffer st' = strip_trailing_comma (feature_buffer st)
    /\ brace_count st' = 0%Z
    /\ travis_buildings st' = travis_buildings st
    /\ total_features st' = total_features st
    /\ printed st' = printed st ++ [PrintParseError (feature_buffer st')]
    /\ forall raw,
        let line := Str.strip raw in
        Str.contains features_key line = false ->
        (Str.startswith "[" line = true ->
         step loads max st' raw = Next st')
        /\ (Str.startswith "[" line = false ->
            Str.startswith "]" line = false ->
            (Str.startswith "{" line = true ->
             step loads max st' raw =
             check_complete loads max
               (set_buffer st' line (brace_delta line)))
            /\ (Str.startswith "{" line = false ->
                step loads max st' raw =
                check_complete loads max
                  (set_buffer st' (feature_buffer st' ++ line)
                     (brace_delta line)))).
Proof.
  intros Hin Hcount Hbuf Hfail.
  destruct (complete_feature_failed loads max st Hfail)
    as (s & E & I & B & C & K & T & F & L).
  exists s; split.
  { unfold check_complete; rewrite Hcount, Hbuf; exact E. }
  split; [exact B|]; split; [congruence|].
  split; [exact K|]; split; [exact T|]; split; [rewrite L, B; reflexivity|].
  intros raw; cbv zeta; intros Hkey; unfold step.
  rewrite Hkey, I, Hin; simpl negb; cbv iota; split.
  - intros ->; reflexivity.
  - intros -> ->; unfold assemble; split; intros ->; [reflexivity|].
    rewrite C, Hcount; reflexivity.
Qed.

(** The broken text, then a line that continues it. *)
Lemma C10_failed_buffer_persists_witness :
  (in_features at_broken = true
   /\ brace_count at_broken = 0%Z
   /\ Str.nonempty (feature_buffer at_broken) = true
   /\ RefJson.loads (strip_trailing_comma (feature_buffer at_broken)) = None)
  /\ exists st',
      check_complete RefJson.loads 5000 at_broken = Next st'
      /\ feature_buffer st' = strip_trailing_comma (feature_buffer at_broken)
      /\ brace_count st' = 0%Z
      /\ travis_buildings st' = travis_buildings at_broken
      /\ total_features st' = total_features at_broken
      /\ printed st' =
         printed at_broken ++ [PrintParseError (feature_buffer st')]
      /\ forall raw,
          let line := Str.strip raw in
          Str.contains features_key line = false ->
          (Str.startswith "[" line = true ->
           step RefJson.loads 5000 st' raw = Next st')
          /\ (Str.startswith "[" line = false ->
              Str.startswith "]" line = false ->
              (Str.startswith "{" line = true ->
               step RefJson.loads 5000 st' raw =
               check_complete RefJson.loads 5000
                 (set_buffer st' line (brace_delta line)))
              /\ (Str.startswith "{" line = false ->
                  step RefJson.loads 5000 st' raw =
                  check_complete RefJson.loads 5000
                    (set_buffer st' (feature_buffer st' ++ line)
                       (brace_delta line)))).
Proof.
  assert (H : RefJson.loads (strip_trailing_comma (feature_buffer at_broken))
              = None) by (vm_compute; reflexivity).
  split; [repeat split; assumption|].
  exact (C10_failed_buffer_persists RefJson.loads 5000 at_broken
           eq_refl eq_refl eq_refl H).
Defined.

(** After a decode failure a line that is an opening bracket is skipped:
    the stale buffer is kept as it is, the line is not appended to it. *)
Lemma C10_bracket_line_not_appended :
  let stale := state_of (check_complete RefJson.loads 5000 at_broken) in
  let raw := ("[" ++ newline)%string in
  RefJson.loads (strip_trailing_comma (feature_buffer at_broken)) = None
  /\ feature_buffer stale = broken_text
  /\ Str.startswith "{" (Str.strip raw) = false
  /\ step RefJson.loads 5000 stale raw = Next stale
  /\ feature_buffer (state_of (step RefJson.loads 5000 stale raw))
     <> (feature_buffer stale ++ Str.strip raw)%string.
Proof.
  cbv zeta; repeat split; try (vm_compute; reflexivity);
    vm_compute; discriminate.
Qed.

(** C1, at a file in the documented layout: an in-region feature that is
    not extracted.  On this file the first feature decodes, its centre lies strictly inside the
    bounding box and the filter accepts it; yet the run scans no feature,
    keeps none and writes no output file. *)
Theorem C1_in_region_feature_not_extracted :
  let r := process_texas_geojson RefJson.loads 5000 documented_file in
  RefJson.loads austin_text = Some austin
  /\ is_in_travis_county austin = true
  /\ (west TRAVIS_BOUNDS < center_lng austin_ring
      /\ center_lng austin_ring < east TRAVIS_BOUNDS)%Q
  /\ (south TRAVIS_BOUNDS < center_lat austin_ring
      /\ center_lat austin_ring < north TRAVIS_BOUNDS)%Q
  /\ status r = NoBuildings
  /\ total_features (final r) = 0%Z
  /\ travis_buildings (final r) = []
  /\ output_file r = None.
Proof.
  cbv zeta; repeat split; vm_compute; reflexivity.
Qed.

(** C2, at the same file: the array scan is not applied to the lines that
    follow the seek.  The seek stops at the line with the features key; the loop then passes
    over every following line without touching its state, the feature
    lines included, whereas the array-scan processing of the first feature
    line would have completed a buffer. *)
Theorem C2_array_scan_not_applied_after_seek :
  let first := hd EmptyString documented_file in
  let feature_line := nth 3 documented_file EmptyString in
  seek_features first (tl documented_file)
  = ((Str.py "'features':" ++ newline)%string, skipn 2 documented_file)
  /\ scan RefJson.loads 5000 initial_state (skipn 2 documented_file)
     = (initial_state, [])
  /\ step RefJson.loads 5000 initial_state feature_line = Next initial_state
  /\ Str.strip feature_line = with_comma austin_text
  /\ check_complete RefJson.loads 5000
       (assemble initial_state (Str.strip feature_line))
     <> Next initial_state.
Proof.
  cbv zeta; repeat split; try (vm_compute; reflexivity);
    vm_compute; discriminate.
Qed.

(** ** Further properties of the run *)

Lemma prefix_append (p a b : string) :
  String.prefix p a = true -> String.prefix p (a ++ b) = true.
Proof.
  revert a; induction p as [|c p IH]; intros a H;
    [destruct (a ++ b)%string; reflexivity|].
  destruct a as [|d a]; simpl in *; [discriminate|].
  destruct (ascii_dec c d); [apply IH; exact H|discriminate].
Qed.

Lemma contains_append (sub a b : string) :
  Str.contains sub a = true -> Str.contains sub (a ++ b) = true.
Proof.
  induction a as [|c a IH]; intros H.
  - simpl in H; rewrite orb_false_r in H.
    destruct sub; [|discriminate].
    destruct b; reflexivity.
  - simpl in H; apply orb_true_iff in H.
    change (Str.contains sub (String c (a ++ b)) = true).
    simpl; apply orb_true_iff; destruct H as [H|H].
    + left; apply (prefix_append sub (String c a) b H).
    + right; apply IH; exact H.
Qed.

Lemma rstrip_is_prefix (s : string) :
  exists w, s = (Str.rstrip s ++ w)%string.
Proof.
  induction s as [|c s [w IH]]; [exists EmptyString; reflexivity|].
  simpl; destruct (Str.rstrip s) as [|d r] eqn:E.
  - destruct (Str.isspace c).
    + eexists; reflexivity.
    + exists s; reflexivity.
  - exists w; simpl in *; rewrite <- IH; reflexivity.
Qed.

Lemma contains_lstrip (sub s : string) :
  Str.contains sub (Str.lstrip s) = true -> Str.contains sub s = true.
Proof.
  induction s as [|c s IH]; [auto|].
  simpl Str.lstrip; destruct (Str.isspace c); [|auto].
  intros H; simpl; apply orb_true_iff; right; apply IH; exact H.
Qed.

(** A key found on the trimmed line is on the line as read. *)
Lemma contains_strip (sub s : string) :
  Str.contains sub (Str.strip s) = true -> Str.contains sub s = true.
Proof.
  unfold Str.strip; intros H; apply contains_lstrip.
  destruct (rstrip_is_prefix (Str.lstrip s)) as [w Hw].
  rewrite Hw; apply contains_append; exact H.
Qed.

(** The seek stops on a line that carries the key, and what it leaves is
    what follows that line. *)
Lemma seek_features_found f :
  forall line line' f2,
    seek_features line f = (line', f2) ->
    Str.nonempty line' = true ->
    Str.contains features_key line' = true
    /\ exists pre,
        line :: f = pre ++ line' :: f2
        /\ Forall (fun l => Str.contains features_key l = false) pre.
Proof.
  induction f as [|l f IH]; intros line line' f2 H Hne; simpl in H.
  - destruct (Str.nonempty line) eqn:E1;
      destruct (Str.contains features_key line) eqn:E2; simpl in H;
      injection H as <- <-; try discriminate; try congruence.
    split; [exact E2|exists []; split; [reflexivity|constructor]].
  - destruct (Str.nonempty line) eqn:E1;
      destruct (Str.contains features_key line) eqn:E2; simpl in H.
    + injection H as <- <-.
      split; [exact E2|exists []; split; [reflexivity|constructor]].
    + destruct (IH _ _ _ H Hne) as (Hkey & pre & Hpre & Hall).
      split; [exact Hkey|].
      exists (line :: pre); split; [simpl; rewrite Hpre; reflexivity|].
      constructor; assumption.
    + injection H as <- <-; congruence.
    + injection H as <- <-; congruence.
Qed.

Lemma key_lines_none f :
  key_lines f = [] ->
  Forall (fun raw => Str.contains features_key (Str.strip raw) = false) f.
Proof.
  unfold key_lines; induction f as [|l f IH]; intros H; [constructor|].
  simpl in H; destruct (Str.contains features_key l) eqn:E; [discriminate|].
  constructor; [|apply IH; exact H].
  destruct (Str.contains features_key (Str.strip l)) eqn:E'; [|reflexivity].
  apply contains_strip in E'; congruence.
Qed.

(** X1. A file in which the features key is on one line only (or on none)
    is never scanned: no feature is counted or kept and no output file is
    written, whatever the decoder and the cap. *)
Theorem single_key_line_gives_no_output
  (loads : string -> option json) (max : Z) (f : list string) :
  (List.length (key_lines f) <= 1)%nat ->
  let r := process_texas_geojson loads max f in
  final r = initial_state /\ output_file r = None.
Proof.
  intros Hone r; subst r.
  destruct (process_cases loads f)
    as [Herr|(first & f1 & line & f2 & -> & Htag & Hseek & Hne)].
  - apply Herr.
  - destruct (seek_features_found _ _ _ _ Hseek Hne)
      as (Hkey & pre & Hpre & Hall).
    assert (Hrest : key_lines f2 = []).
    { rewrite Hpre in Hone; unfold key_lines in *.
      rewrite filter_app in Hone; simpl in Hone; rewrite Hkey in Hone.
      rewrite length_app in Hone; simpl in Hone.
      destruct (filter (Str.contains features_key) f2); [reflexivity|].
      simpl in Hone; lia. }
    rewrite (process_scan loads max _ _ _ _ Htag Hseek Hne); cbv zeta.
    rewrite (scan_outside_features loads max f2 initial_state eq_refl
               (key_lines_none _ Hrest)).
    split; reflexivity.
Qed.

Lemma single_key_line_gives_no_output_witness :
  (List.length (key_lines documented_file) <= 1)%nat
  /\ (let r := process_texas_geojson RefJson.loads 5000 documented_file in
      final r = initial_state /\ output_file r = None).
Proof.
  assert (H : (List.length (key_lines documented_file) <= 1)%nat).
  { vm_compute; lia. }
  split; [exact H|].
  exact (single_key_line_gives_no_output RefJson.loads 5000 documented_file H).
Defined.

(** One pass counts at most one feature, and keeps a building only when
    it counts one. *)
Lemma step_counters (loads : string -> option json) (c : Z)
  (st : scan_state) (raw : string) :
  let s := state_of (step loads c st raw) in
  (total_features st <= total_features s <= total_features st + 1)%Z
  /\ (found_count st <= found_count s)%Z
  /\ (found_count s - found_count st
      <= total_features s - total_features st)%Z.
Proof.
  unfold step.
  destruct (Str.contains features_key (Str.strip raw)); [simpl; lia|].
  destruct (in_features st); simpl negb; cbv iota; [|simpl; lia].
  destruct (Str.startswith "[" (Str.strip raw)); [simpl; lia|].
  destruct (Str.startswith "]" (Str.strip raw)); [simpl; lia|].
  unfold check_complete, assemble.
  destruct (Str.startswith "{" (Str.strip raw)); simpl;
    match goal with |- context [if ?b then _ else _] => destruct b end;
    try (simpl; lia); unfold complete_feature; simpl;
    match goal with |- context [loads ?t] => destruct (loads t) as [v|] end;
    try (simpl; lia);
    destruct (is_in_travis_county v); try (simpl; lia);
    match goal with |- context [(?a >=? c)%Z] => destruct (a >=? c)%Z end;
    simpl; lia.
Qed.

Lemma scan_counters (loads : string -> option json) (c : Z) (f : list string) :
  forall st,
    (found_count st <= total_features st)%Z ->
    let s := fst (scan loads c st f) in
    (found_count s <= total_features s)%Z
    /\ (total_features s <= total_features st + Z.of_nat (List.length f))%Z.
Proof.
  induction f as [|raw f IH]; intros st Hle; simpl scan; [simpl; lia|].
  pose proof (step_counters loads c st raw) as Hstep; cbv zeta in Hstep.
  simpl List.length.
  destruct (step loads c st raw) as [s|s]; simpl in Hstep.
  - destruct (IH s ltac:(lia)) as [H1 H2]; cbv zeta; lia.
  - simpl; lia.
Qed.

(** X3. In every run the kept counter is at most the counter of scanned
    features, which is at most the number of lines of the file. *)
Theorem counters_are_ordered
  (loads : string -> option json) (max : Z) (f : list string) :
  let r := process_texas_geojson loads max f in
  (0 <= found_count (final r) <= total_features (final r))%Z
  /\ (total_features (final r) <= Z.of_nat (List.length f))%Z.
Proof.
  intros r.
  destruct (process_invariant loads max f) as [Hcnt _]; fold r in Hcnt.
  unfold counted in Hcnt; revert Hcnt; subst r.
  destruct (process_cases loads f)
    as [Herr|(first & f1 & line & f2 & -> & Htag & Hseek & Hne)].
  - destruct (Herr max) as [-> _]; simpl; lia.
  - rewrite (process_scan loads max _ _ _ _ Htag Hseek Hne); cbv zeta.
    rewrite final_of_scan; intros Hcnt.
    destruct (scan_counters loads max f2 initial_state) as [H1 H2];
      [simpl; lia|].
    pose proof (seek_features_length f1 first) as Hlen.
    rewrite Hseek in Hlen; simpl in H2, Hlen; simpl List.length; lia.
Qed.

(** X4. Raising the cap only adds buildings at the end: what a run keeps
    under a cap is the beginning of what it keeps under any larger cap. *)
Theorem larger_cap_extends_kept
  (loads : string -> option json) (m m' : Z) (f : list string) :
  (m <= m')%Z ->
  exists more,
    travis_buildings (final (process_texas_geojson loads m' f))
    = travis_buildings (final (process_texas_geojson loads m f)) ++ more.
Proof.
  intros Hle; rewrite !process_capped_prefix.
  set (all := in_region_features loads f).
  set (a := Z.to_nat (Z.max 1 m)); set (b := Z.to_nat (Z.max 1 m')).
  assert (Hab : (a <= b)%nat) by (subst a b; lia).
  exists (skipn a (firstn b all)).
  rewrite <- (firstn_skipn a (firstn b all)) at 1.
  rewrite firstn_firstn, Nat.min_l by exact Hab; reflexivity.
Qed.

Lemma larger_cap_extends_kept_witness :
  (1 <= 2)%Z
  /\ exists more,
      travis_buildings
        (final (process_texas_geojson RefJson.loads 2 two_key_file))
      = travis_buildings
          (final (process_texas_geojson RefJson.loads 1 two_key_file))
        ++ more.
Proof.
  split; [lia|].
  apply (larger_cap_extends_kept RefJson.loads 1 2 two_key_file); lia.
Defined.

(** X5. With a cap of at least 1 the number of buildings kept is the cap
    or the number of in-region features of the input, whichever is
    smaller. *)
Theorem kept_count_is_min
  (loads : string -> option json) (max : Z) (f : list string) :
  (1 <= max)%Z ->
  found_count (final (process_texas_geojson loads max f))
  = Z.min max (Z.of_nat (List.length (in_region_features loads f))).
Proof.
  intros Hmax.
  destruct (process_invariant loads max f) as [Hcnt _].
  unfold counted in Hcnt; rewrite Hcnt, process_capped_prefix, length_firstn.
  lia.
Qed.

Lemma kept_count_is_min_witness :
  (1 <= 1)%Z
  /\ found_count (final (process_texas_geojson RefJson.loads 1 two_key_file))
     = Z.min 1
         (Z.of_nat (List.length (in_region_features RefJson.loads two_key_file))).
Proof.
  split; [lia|].
  apply (kept_count_is_min RefJson.loads 1 two_key_file); lia.
Defined.

Lemma eq_str_true (v : json) (s : string) :
  Py.eq_str v s = true -> v = JStr s.
Proof.
  destruct v; try discriminate; simpl.
  intros H; apply String.eqb_eq in H; subst; reflexivity.
Qed.

(** Whatever the filter accepts is a mapping with a Polygon or
    MultiPolygon geometry. *)
Lemma is_in_travis_county_polygonal (v : json) :
  is_in_travis_county v = true -> polygonal v.
Proof.
  intros H; apply is_in_travis_county_true in H.
  destruct H as (g & coords & Hg & Hc & Hsel & _).
  destruct v as [| | | | |fkvs]; try discriminate.
  simpl in Hg; destruct (Py.lookup "geometry" fkvs) as [g'|] eqn:Eg;
    [|discriminate].
  injection Hg as ->.
  unfold select_coordinates in Hsel.
  bind_inv Hsel as ty Hty.
  destruct g as [| | | | |gkvs]; try discriminate.
  simpl in Hty, Hc.
  destruct (Py.lookup "type" gkvs) as [ty'|] eqn:Et; [|discriminate].
  injection Hty as ->.
  destruct (Py.lookup "coordinates" gkvs) as [c|] eqn:Ec; [|discriminate].
  destruct (Py.eq_str ty "Polygon") eqn:E1.
  - apply eq_str_true in E1; subst ty.
    exists fkvs, gkvs, "Polygon", c; auto 6.
  - bind_inv Hsel as ty2 Hty2; simpl in Hty2; rewrite Et in Hty2.
    injection Hty2 as <-.
    destruct (Py.eq_str ty "MultiPolygon") eqn:E2; [|discriminate].
    apply eq_str_true in E2; subst ty.
    exists fkvs, gkvs, "MultiPolygon", c; auto 6.
Qed.

(** X6. Every feature of the output is a mapping whose geometry is a
    mapping of type Polygon or MultiPolygon: a decoded value of any other
    shape (a string, a number, a list, a Point feature) is never kept. *)
Theorem kept_features_are_polygonal
  (loads : string -> option json) (max : Z) (f : list string) :
  Forall polygonal
    (travis_buildings (final (process_texas_geojson loads max f))).
Proof.
  destruct (process_invariant loads max f) as [_ Hall].
  eapply Forall_impl; [|exact Hall].
  intros v [Hin _]; apply is_in_travis_county_polygonal; exact Hin.
Qed.

Lemma seek_features_skips (first : string) (skipped rest : list string) :
  Str.nonempty first = true ->
  Str.contains features_key first = false ->
  Forall (fun l => Str.nonempty l = true
                   /\ Str.contains features_key l = false) skipped ->
  seek_features first (skipped ++ rest) = seek_features first rest.
Proof.
  intros Hne Hkey Hall; revert first Hne Hkey.
  induction Hall as [|l skipped [Hl1 Hl2] Hall IH]; intros first Hne Hkey;
    [reflexivity|].
  simpl; rewrite Hne, Hkey; simpl.
  rewrite (IH l Hl1 Hl2).
  destruct rest as [|l' rest']; simpl;
    rewrite ?Hne, ?Hkey, ?Hl1, ?Hl2; reflexivity.
Qed.

Lemma tag_nonempty (first : string) :
  Str.startswith collection_tag (Str.strip first) = true ->
  Str.nonempty first = true.
Proof. destruct first; [discriminate|reflexivity]. Qed.

(** X7. Lines between the first line and the first line that carries the
    features key are skipped without being looked at any further: taking
    them out of the file gives the same run. *)
Theorem header_lines_are_skipped
  (loads : string -> option json) (max : Z)
  (first : string) (skipped rest : list string) :
  Str.startswith collection_tag (Str.strip first) = true ->
  Str.contains features_key first = false ->
  Forall (fun l => Str.nonempty l = true
                   /\ Str.contains features_key l = false) skipped ->
  process_texas_geojson loads max (first :: skipped ++ rest)
  = process_texas_geojson loads max (first :: rest).
Proof.
  intros Htag Hkey Hall; unfold process_texas_geojson; simpl.
  rewrite Htag; simpl.
  rewrite (seek_features_skips first skipped rest (tag_nonempty _ Htag)
             Hkey Hall).
  reflexivity.
Qed.

Lemma header_lines_are_skipped_witness :
  (Str.startswith collection_tag
     (Str.strip (hd EmptyString two_key_file)) = true
   /\ Str.contains features_key (hd EmptyString two_key_file) = false
   /\ Forall (fun l => Str.nonempty l = true
                       /\ Str.contains features_key l = false)
        [(Str.py "'crs':null," ++ newline)%string])
  /\ process_texas_geojson RefJson.loads 5000
       (hd EmptyString two_key_file
        :: [(Str.py "'crs':null," ++ newline)%string] ++ tl two_key_file)
     = process_texas_geojson RefJson.loads 5000
         (hd EmptyString two_key_file :: tl two_key_file).
Proof.
  assert (H3 : Forall (fun l => Str.nonempty l = true
                                /\ Str.contains features_key l = false)
                 [(Str.py "'crs':null," ++ newline)%string]).
  { constructor; [split; reflexivity|constructor]. }
  split; [repeat split; exact H3|].
  exact (header_lines_are_skipped RefJson.loads 5000
           (hd EmptyString two_key_file)
           [(Str.py "'crs':null," ++ newline)%string] (tl two_key_file)
           eq_refl eq_refl H3).
Defined.

Lemma scan_counted (loads : string -> option json) (c : Z) (f : list string) :
  forall st, counted st -> counted (fst (scan loads c st f)).
Proof.
  induction f as [|raw f IH]; intros st Hcnt; simpl; [exact Hcnt|].
  unfold counted in *.
  destruct (step_cases loads st raw)
    as [(s & [Hk Hf] & Hs)|[Hb|(v & text & sN & Hv & Hin & [HN1 HN2] & Hc)]].
  - rewrite Hs; apply IH; rewrite Hk, Hf; exact Hcnt.
  - rewrite Hb; exact Hcnt.
  - destruct (Hc c) as [HcN HcB].
    destruct (Z_lt_le_dec (found_count st + 1) c) as [H|H].
    + rewrite (HcN H); apply IH; rewrite HN1, HN2, length_app; simpl; lia.
    + destruct (HcB H) as (sB & -> & [HB1 HB2]); simpl.
      rewrite HB1, HB2, length_app; simpl; lia.
Qed.

Lemma startswith_close (line : string) :
  Str.startswith "]" line = true -> Str.startswith "[" line = false.
Proof.
  destruct line as [|a line]; [discriminate|].
  unfold Str.startswith; intros H.
  apply prefix_correct in H; simpl in H.
  injection H as -> _; reflexivity.
Qed.

(** X8. A file laid out as: the tag line, a line with the features key (on
    which the seek stops), a second line with the key, a line that opens
    the array, well-formed objects each on its own lines, a line that
    closes the array, and anything after it.  With the cap out of reach
    the run counts every object, keeps those in region in file order,
    writes them (when there is one), and leaves what follows the closing
    line unread. *)
Theorem two_key_layout_is_extracted
  (loads : string -> option json) (max : Z)
  (first seek_line key_line open_line close_line : string)
  (chunks : list (list string)) (vs : list json) (tail : list string) :
  Str.startswith collection_tag (Str.strip first) = true ->
  Str.contains features_key first = false ->
  Str.contains features_key seek_line = true ->
  Str.contains features_key (Str.strip key_line) = true ->
  Str.contains features_key (Str.strip open_line) = false ->
  Str.startswith "[" (Str.strip open_line) = true ->
  Str.contains features_key (Str.strip close_line) = false ->
  Str.startswith "]" (Str.strip close_line) = true ->
  Forall2
    (fun lines v =>
       feature_lines lines = true
       /\ loads (strip_trailing_comma (feature_text lines)) = Some v)
    chunks vs ->
  (Z.of_nat (List.length vs) < max)%Z ->
  let r :=
    process_texas_geojson loads max
      (first :: seek_line :: key_line :: open_line
       :: concat chunks ++ close_line :: tail) in
  travis_buildings (final r) = filter is_in_travis_county vs
  /\ total_features (final r) = Z.of_nat (List.length vs)
  /\ unread r = tail
  /\ output_file r =
     match filter is_in_travis_county vs with
     | [] => None
     | kept => Some (JObject [("type", JStr "FeatureCollection");
                              ("features", JArray kept)])
     end.
Proof.
  intros Htag Hk1 Hk2 Hk3 Hk4 Hopen Hk5 Hclose Hall Hcap r.
  assert (Hseek :
    seek_features first
      (seek_line :: key_line :: open_line
       :: concat chunks ++ close_line :: tail)
    = (seek_line,
       key_line :: open_line :: concat chunks ++ close_line :: tail)).
  { simpl; rewrite (tag_nonempty _ Htag), Hk1; simpl.
    rewrite Hk2, andb_false_r; reflexivity. }
  assert (Hne : Str.nonempty seek_line = true).
  { destruct seek_line; [discriminate|reflexivity]. }
  subst r; rewrite (process_scan loads max _ _ _ _ Htag Hseek Hne); cbv zeta.
  destruct (scan_documented_features loads max chunks vs live_state
              (close_line :: tail) Hall eq_refl)
    as (st' & Hscan & Hin' & Hkept & Htotal & _); [simpl; lia|].
  assert (Hrun :
    scan loads max initial_state
      (key_line :: open_line :: concat chunks ++ close_line :: tail)
    = (st', tail)).
  { rewrite scan_cons; unfold step at 1; rewrite Hk3; unfold resume at 1.
    rewrite scan_cons; unfold step at 1; rewrite Hk4; simpl negb; cbv iota.
    change (set_in_features initial_state) with live_state.
    simpl in_features; cbv iota; rewrite Hopen; unfold resume at 1.
    rewrite Hscan, scan_cons; unfold step.
    rewrite Hk5, Hin', (startswith_close _ Hclose), Hclose; reflexivity. }
  assert (Hcnt : counted st').
  { pose proof (scan_counted loads max
                  (key_line :: open_line :: concat chunks ++ close_line :: tail)
                  initial_state counted_initial) as H.
    rewrite Hrun in H; exact H. }
  rewrite Hrun; simpl fst; simpl snd.
  simpl in Hkept, Htotal; unfold counted in Hcnt; rewrite Hkept in Hcnt.
  destruct (found_count st' =? 0)%Z eqn:E; simpl.
  - apply Z.eqb_eq in E.
    destruct (filter is_in_travis_county vs) eqn:Ef; [|simpl in Hcnt; lia].
    rewrite Hkept, Htotal; repeat split; lia.
  - apply Z.eqb_neq in E.
    destruct (filter is_in_travis_county vs) eqn:Ef;
      [simpl in Hcnt; lia|].
    unfold output_geojson; rewrite Hkept, Htotal; repeat split; lia.
Qed.

Lemma two_key_layout_is_extracted_witness :
  (Str.startswith collection_tag (Str.strip tag_line) = true
   /\ Str.contains features_key tag_line = false
   /\ Str.contains features_key name_line = true
   /\ Str.contains features_key (Str.strip features_line) = true
   /\ Str.contains features_key (Str.strip open_bracket_line) = false
   /\ Str.startswith "[" (Str.strip open_bracket_line) = true
   /\ Str.contains features_key (Str.strip close_bracket_line) = false
   /\ Str.startswith "]" (Str.strip close_bracket_line) = true
   /\ Forall2
        (fun lines v =>
           feature_lines lines = true
           /\ RefJson.loads (strip_trailing_comma (feature_text lines))
              = Some v)
        [austin_lines; houston_lines; pflugerville_lines]
        [austin; houston; pflugerville]
   /\ (Z.of_nat (List.length [austin; houston; pflugerville]) < 5000)%Z)
  /\ (let r :=
        process_texas_geojson RefJson.loads 5000
          (tag_line :: name_line :: features_line :: open_bracket_line
           :: concat [austin_lines; houston_lines; pflugerville_lines]
              ++ close_bracket_line :: [close_brace_line]) in
      travis_buildings (final r)
      = filter is_in_travis_county [austin; houston; pflugerville]
      /\ total_features (final r)
         = Z.of_nat (List.length [austin; houston; pflugerville])
      /\ unread r = [close_brace_line]
      /\ output_file r =
         match filter is_in_travis_county [austin; houston; pflugerville]
         with
         | [] => None
         | kept => Some (JObject [("type", JStr "FeatureCollection");
                                  ("features", JArray kept)])
         end).
Proof.
  assert (H9 : Forall2
                 (fun lines v =>
                    feature_lines lines = true
                    /\ RefJson.loads
                         (strip_trailing_comma (feature_text lines))
                       = Some v)
                 [austin_lines; houston_lines; pflugerville_lines]
                 [austin; houston; pflugerville]).
  { repeat constructor; vm_compute; reflexivity. }
  assert (H10 : (Z.of_nat (List.length [austin; houston; pflugerville])
                 < 5000)%Z) by (simpl; lia).
  split; [repeat split; solve [exact H9 | exact H10 | reflexivity]|].
  exact (two_key_layout_is_extracted RefJson.loads 5000
           tag_line name_line features_line open_bracket_line
           close_bracket_line
           [austin_lines; houston_lines; pflugerville_lines]
           [austin; houston; pflugerville] [close_brace_line]
           eq_refl eq_refl eq_refl eq_refl eq_refl eq_refl eq_refl eq_refl
           H9 H10).
Defined.

Example two_key_file_lines :
  two_key_file
  = tag_line :: name_line :: features_line :: open_bracket_line
    :: concat [austin_lines; houston_lines; pflugerville_lines]
       ++ close_bracket_line :: [close_brace_line].
Proof. reflexivity. Qed.

Lemma set_buffer_same (st : scan_state) :
  set_buffer st (feature_buffer st ++ EmptyString) (brace_count st + 0) = st.
Proof.
  destruct st; unfold set_buffer; simpl.
  rewrite append_empty_r, Z.add_0_r; reflexivity.
Qed.

(** X9. A blank line never changes the buffer or the brace counter: before
    the loop has met the features key it does nothing, after that it only
    runs the completion test again.  So it leaves the loop as it is
    whenever the buffer is empty or a feature is still open. *)
Theorem blank_line_only_retests
  (loads : string -> option json) (max : Z) (st : scan_state) (raw : string) :
  Str.strip raw = EmptyString ->
  step loads max st raw
  = (if in_features st then check_complete loads max st else Next st)
  /\ (feature_buffer st = EmptyString \/ brace_count st <> 0%Z ->
      step loads max st raw = Next st).
Proof.
  intros Hblank.
  assert (Hstep : step loads max st raw
                  = if in_features st then check_complete loads max st
                    else Next st).
  { unfold step; rewrite Hblank.
    change (Str.contains features_key EmptyString) with false.
    destruct (in_features st); [|reflexivity]; simpl negb; cbv iota.
    change (Str.startswith "[" EmptyString) with false.
    change (Str.startswith "]" EmptyString) with false.
    cbv iota; unfold assemble.
    change (Str.startswith "{" EmptyString) with false.
    change (brace_delta EmptyString) with 0%Z.
    cbv iota; rewrite set_buffer_same; reflexivity. }
  split; [exact Hstep|].
  intros Hidle; rewrite Hstep.
  destruct (in_features st); [|reflexivity].
  unfold check_complete; destruct Hidle as [->|Hcount].
  - rewrite andb_false_r; reflexivity.
  - apply Z.eqb_neq in Hcount; rewrite Hcount; reflexivity.
Qed.

Lemma blank_line_only_retests_witness :
  Str.strip ("   " ++ newline) = EmptyString
  /\ (step RefJson.loads 5000 mid_feature ("   " ++ newline)
      = (if in_features mid_feature
         then check_complete RefJson.loads 5000 mid_feature
         else Next mid_feature)
      /\ (feature_buffer mid_feature = EmptyString
          \/ brace_count mid_feature <> 0%Z ->
          step RefJson.loads 5000 mid_feature ("   " ++ newline)
          = Next mid_feature)).
Proof.
  split; [reflexivity|].
  apply (blank_line_only_retests RefJson.loads 5000 mid_feature
           ("   " ++ newline)); reflexivity.
Defined.

Lemma endswith_with_comma (s : string) :
  Str.endswith "," (with_comma s) = true.
Proof.
  unfold with_comma; induction s as [|a s IH]; [reflexivity|].
  simpl; destruct s; [reflexivity|exact IH].
Qed.

Lemma drop_last_with_comma (s : string) :
  Str.drop_last (with_comma s) = s.
Proof.
  unfold with_comma; induction s as [|a s IH]; [reflexivity|].
  simpl; destruct s; [reflexivity|].
  simpl in *; rewrite IH; reflexivity.
Qed.

(** Taking the trailing comma off undoes putting one on, and takes one
    comma only. *)
Lemma strip_trailing_comma_with_comma (s : string) :
  strip_trailing_comma (with_comma s) = s.
Proof.
  unfold strip_trailing_comma.
  rewrite endswith_with_comma; apply drop_last_with_comma.
Qed.

(** X10. The comma that follows a feature makes no difference: a completed
    buffer with one trailing comma is decoded, counted and kept exactly as
    the same text without it. *)
Theorem trailing_comma_makes_no_difference
  (loads : string -> option json) (max : Z) (st : scan_state)
  (text : string) (count : Z) :
  Str.endswith "," text = false ->
  complete_feature loads max (set_buffer st (with_comma text) count)
  = complete_feature loads max (set_buffer st text count).
Proof.
  intros Hno.
  assert (E : strip_trailing_comma text = text).
  { unfold strip_trailing_comma; rewrite Hno; reflexivity. }
  unfold complete_feature, set_buffer.
  cbn [feature_buffer in_features brace_count travis_buildings
       total_features found_count printed].
  rewrite strip_trailing_comma_with_comma, E; reflexivity.
Qed.

Lemma trailing_comma_makes_no_difference_witness :
  Str.endswith "," austin_text = false
  /\ complete_feature RefJson.loads 5000
       (set_buffer live_state (with_comma austin_text) 0)
     = complete_feature RefJson.loads 5000
         (set_buffer live_state austin_text 0).
Proof.
  split; [reflexivity|].
  apply (trailing_comma_makes_no_difference RefJson.loads 5000 live_state
           austin_text 0); reflexivity.
Defined.

(** X11. The filter looks at the geometry of a feature and at nothing else:
    two features with the same geometry get the same answer, whatever
    their other properties. *)
Theorem filter_reads_geometry_only (kvs kvs' : list (string * json)) :
  Py.lookup "geometry" kvs = Py.lookup "geometry" kvs' ->
  is_in_travis_county (JObject kvs) = is_in_travis_county (JObject kvs').
Proof.
  intros H; unfold is_in_travis_county, is_in_travis_county_try; simpl.
  rewrite H; reflexivity.
Qed.

Lemma filter_reads_geometry_only_witness :
  Py.lookup "geometry" (polygon_fields austin_ring)
  = Py.lookup "geometry"
      [("geometry", JObject (polygon_geometry austin_ring));
       ("properties", JObject [("height", JNum 12)])]
  /\ is_in_travis_county (JObject (polygon_fields austin_ring))
     = is_in_travis_county
         (JObject [("geometry", JObject (polygon_geometry austin_ring));
                   ("properties", JObject [("height", JNum 12)])]).
Proof.
  split; [reflexivity|].
  apply filter_reads_geometry_only; reflexivity.
Defined.

Lemma is_in_travis_county_geometry fkvs gkvs c :
  Py.lookup "geometry" fkvs = Some (JObject gkvs) ->
  Py.lookup "coordinates" gkvs = Some c ->
  is_in_travis_county (JObject fkvs)
  = match (sel <- select_coordinates (JObject gkvs) ;;
           match sel with
           | None => Ok false
           | Some coordinates => center_in_bounds coordinates
           end)
    with
    | Ok b => b
    | Raise _ => false
    end.
Proof.
  intros Hg Hc; unfold is_in_travis_county, is_in_travis_county_try; simpl.
  rewrite Hg; simpl; rewrite Hc; reflexivity.
Qed.

(** X12. Of a Polygon only the first ring is read: two Polygon features
    with the same first ring get the same answer, whatever rings follow
    it. *)
Theorem polygon_holes_are_ignored
  (fkvs fkvs' gkvs gkvs' : list (string * json))
  (ring : json) (holes holes' : list json) :
  Py.lookup "geometry" fkvs = Some (JObject gkvs) ->
  Py.lookup "geometry" fkvs' = Some (JObject gkvs') ->
  Py.lookup "type" gkvs = Some (JStr "Polygon") ->
  Py.lookup "type" gkvs' = Some (JStr "Polygon") ->
  Py.lookup "coordinates" gkvs = Some (JArray (ring :: holes)) ->
  Py.lookup "coordinates" gkvs' = Some (JArray (ring :: holes')) ->
  is_in_travis_county (JObject fkvs) = is_in_travis_county (JObject fkvs').
Proof.
  intros Hg Hg' Ht Ht' Hc Hc'.
  rewrite (is_in_travis_county_geometry _ _ _ Hg Hc).
  rewrite (is_in_travis_county_geometry _ _ _ Hg' Hc').
  unfold select_coordinates; simpl.
  rewrite Ht, Ht'; simpl; rewrite Hc, Hc'; reflexivity.
Qed.

Lemma polygon_holes_are_ignored_witness :
  (Py.lookup "geometry" (polygon_fields austin_ring)
   = Some (JObject (polygon_geometry austin_ring))
   /\ Py.lookup "geometry" holed_fields = Some (JObject holed_geometry)
   /\ Py.lookup "type" (polygon_geometry austin_ring) = Some (JStr "Polygon")
   /\ Py.lookup "type" holed_geometry = Some (JStr "Polygon")
   /\ Py.lookup "coordinates" (polygon_geometry austin_ring)
      = Some (JArray (JArray (map as_position austin_ring) :: []))
   /\ Py.lookup "coordinates" holed_geometry
      = Some (JArray (JArray (map as_position austin_ring)
                      :: [JStr "not a ring"])))
  /\ is_in_travis_county (JObject (polygon_fields austin_ring))
     = is_in_travis_county (JObject holed_fields).
Proof.
  split; [repeat split|].
  exact (polygon_holes_are_ignored
           (polygon_fields austin_ring) holed_fields
           (polygon_geometry austin_ring) holed_geometry
           (JArray (map as_position austin_ring)) [] [JStr "not a ring"]
           eq_refl eq_refl eq_refl eq_refl eq_refl eq_refl).
Defined.

(** X13. A MultiPolygon is tested on the blend of its outer rings: when
    they are lists, it gets the answer of the Polygon whose first ring is
    all of them put end to end. *)
Theorem multipolygon_is_blended
  (fkvs fkvs' gkvs gkvs' : list (string * json))
  (polygons raw holes : list json) :
  Py.lookup "geometry" fkvs = Some (JObject gkvs) ->
  Py.lookup "geometry" fkvs' = Some (JObject gkvs') ->
  Py.lookup "type" gkvs = Some (JStr "MultiPolygon") ->
  Py.lookup "type" gkvs' = Some (JStr "Polygon") ->
  Py.lookup "coordinates" gkvs = Some (JArray polygons) ->
  Py.lookup "coordinates" gkvs' = Some (JArray (JArray raw :: holes)) ->
  concat_outer_rings polygons = Some raw ->
  is_in_travis_county (JObject fkvs) = is_in_travis_county (JObject fkvs').
Proof.
  intros Hg Hg' Ht Ht' Hc Hc' Hraw.
  rewrite (is_in_travis_county_geometry _ _ _ Hg Hc).
  rewrite (is_in_travis_county_geometry _ _ _ Hg' Hc').
  rewrite (select_coordinates_points gkvs "MultiPolygon" _ raw Ht Hc Hraw).
  rewrite (select_coordinates_points gkvs' "Polygon" _ raw Ht' Hc' eq_refl).
  reflexivity.
Qed.

Lemma multipolygon_is_blended_witness :
  (Py.lookup "geometry" split_fields = Some (JObject split_geometry)
   /\ Py.lookup "geometry" (polygon_fields austin_ring)
      = Some (JObject (polygon_geometry austin_ring))
   /\ Py.lookup "type" split_geometry = Some (JStr "MultiPolygon")
   /\ Py.lookup "type" (polygon_geometry austin_ring) = Some (JStr "Polygon")
   /\ Py.lookup "coordinates" split_geometry
      = Some (JArray
                [JArray [JArray (map as_position (firstn 2 austin_ring))];
                 JArray [JArray (map as_position (skipn 2 austin_ring))]])
   /\ Py.lookup "coordinates" (polygon_geometry austin_ring)
      = Some (JArray (JArray (map as_position austin_ring) :: []))
   /\ concat_outer_rings
        [JArray [JArray (map as_position (firstn 2 austin_ring))];
         JArray [JArray (map as_position (skipn 2 austin_ring))]]
      = Some (map as_position austin_ring))
  /\ is_in_travis_county (JObject split_fields)
     = is_in_travis_county (JObject (polygon_fields austin_ring)).
Proof.
  split; [repeat split|].
  exact (multipolygon_is_blended
           split_fields (polygon_fields austin_ring)
           split_geometry (polygon_geometry austin_ring)
           [JArray [JArray (map as_position (firstn 2 austin_ring))];
            JArray [JArray (map as_position (skipn 2 austin_ring))]]
           (map as_position austin_ring) []
           eq_refl eq_refl eq_refl eq_refl eq_refl eq_refl eq_refl).
Defined.

(** X14. [main] leaves an output file only when the input file exists, and
    the file then holds between 1 and 5000 features, each accepted by the
    filter. *)
Theorem main_output_is_bounded
  (loads : string -> option json) (input_file : option (list string))
  (doc : json) :
  main_output loads input_file = Some doc ->
  exists f kept,
    input_file = Some f
    /\ doc = JObject [("type", JStr "FeatureCollection");
                      ("features", JArray kept)]
    /\ (1 <= List.length kept <= 5000)%nat
    /\ Forall (fun v => is_in_travis_county v = true) kept.
Proof.
  unfold main_output, main; destruct input_file as [f|]; [|discriminate].
  simpl; intros H; exists f.
  exists (travis_buildings
            (final (process_texas_geojson loads default_max_buildings f))).
  destruct (process_invariant loads default_max_buildings f) as [Hcnt Hall].
  unfold counted in Hcnt; revert H Hcnt Hall.
  destruct (process_cases loads f)
    as [Herr|(first & f1 & line & f2 & -> & Htag & Hseek & Hne)].
  - destruct (Herr default_max_buildings) as [_ ->]; discriminate.
  - rewrite (process_scan loads _ _ _ _ _ Htag Hseek Hne); cbv zeta.
    pose proof (scan_below_cap loads default_max_buildings f2 initial_state)
      as Hcap.
    destruct (found_count
                (fst (scan loads default_max_buildings initial_state f2))
              =? 0)%Z eqn:E; simpl; intros H Hcnt Hall; [discriminate|].
    apply Z.eqb_neq in E; injection H as <-.
    split; [reflexivity|]; split; [reflexivity|]; split.
    + specialize (Hcap ltac:(simpl; unfold default_max_buildings; lia)).
      unfold default_max_buildings in *; lia.
    + eapply Forall_impl; [|exact Hall]; intros v [Hin _]; exact Hin.
Qed.

Lemma main_output_is_bounded_witness :
  main_output RefJson.loads (Some two_key_file)
  = Some (JObject [("type", JStr "FeatureCollection");
                   ("features", JArray [austin; pflugerville])])
  /\ exists f kept,
      Some two_key_file = Some f
      /\ JObject [("type", JStr "FeatureCollection");
                  ("features", JArray [austin; pflugerville])]
         = JObject [("type", JStr "FeatureCollection");
                    ("features", JArray kept)]
      /\ (1 <= List.length kept <= 5000)%nat
      /\ Forall (fun v => is_in_travis_county v = true) kept.
Proof.
  assert (H : main_output RefJson.loads (Some two_key_file)
              = Some (JObject [("type", JStr "FeatureCollection");
                               ("features", JArray [austin; pflugerville])])).
  { vm_compute; reflexivity. }
  split; [exact H|].
  exact (main_output_is_bounded RefJson.loads (Some two_key_file) _ H).
Defined.

(** ** The geometry filter whatever the arithmetic *)

Section GenericFacts.

Variable N : Type.
Variable A : Generic.arithmetic N.

Lemma and_then_Done {X Y : Type} (m : Generic.outcome X)
  (k : X -> Generic.outcome Y) (x : X) :
  m = Generic.Done x -> Generic.and_then m k = k x.
Proof. intros ->; reflexivity. Qed.

Lemma generic_position_index_0 (p : Generic.value N) xy :
  Generic.position p = Some xy ->
  Generic.index p 0 = Generic.Done (Generic.VNum (fst xy)).
Proof.
  destruct p as [| | | |xs|]; try discriminate.
  destruct xs as [|x xs]; try discriminate.
  destruct x; try discriminate.
  destruct xs as [|y xs]; try discriminate.
  destruct y; try discriminate.
  simpl; intros H; injection H as <-; reflexivity.
Qed.

Lemma generic_position_index_1 (p : Generic.value N) xy :
  Generic.position p = Some xy ->
  Generic.index p 1 = Generic.Done (Generic.VNum (snd xy)).
Proof.
  destruct p as [| | | |xs|]; try discriminate.
  destruct xs as [|x xs]; try discriminate.
  destruct x; try discriminate.
  destruct xs as [|y xs]; try discriminate.
  destruct y; try discriminate.
  simpl; intros H; injection H as <-; reflexivity.
Qed.

(** On a list of positions the sum of the source is the numbers added one
    after the other. *)
Lemma generic_sum_at_positions (i : nat) (proj : N * N -> N) :
  (forall p xy, Generic.position p = Some xy ->
                Generic.index p i = Generic.Done (Generic.VNum (proj xy))) ->
  forall raw pts acc,
    Generic.positions raw = Some pts ->
    Generic.sum_at A i raw acc
    = Generic.overflow (Generic.total A (map proj pts) acc).
Proof.
  intros Hproj raw; induction raw as [|p raw IH]; intros pts acc H;
    simpl in *.
  - injection H as <-; reflexivity.
  - destruct (Generic.position p) as [xy|] eqn:Hp; [|discriminate].
    destruct (Generic.positions raw) as [l|] eqn:Hl; [|discriminate].
    injection H as <-.
    rewrite (Hproj _ _ Hp); simpl.
    destruct (Generic.plus A acc (proj xy)) as [acc'|]; simpl;
      [apply IH; reflexivity|reflexivity].
Qed.

Lemma generic_positions_length (raw : list (Generic.value N)) pts :
  Generic.positions raw = Some pts -> List.length raw = List.length pts.
Proof.
  revert pts; induction raw as [|p raw IH]; intros pts H; simpl in *.
  - injection H as <-; reflexivity.
  - destruct (Generic.position p); [|discriminate].
    destruct (Generic.positions raw) as [l|]; [|discriminate].
    injection H as <-; simpl; f_equal; apply IH; reflexivity.
Qed.

Lemma generic_extend_outer_rings (polygons : list (Generic.value N)) :
  forall acc l,
    Generic.concat_outer_rings polygons = Some l ->
    Generic.extend_outer_rings polygons acc = Generic.Done (acc ++ l).
Proof.
  induction polygons as [|p rest IH]; intros acc l H; simpl in *.
  - injection H as <-; rewrite app_nil_r; reflexivity.
  - destruct (Generic.outer_ring p) as [r|] eqn:Hr; [|discriminate].
    destruct (Generic.concat_outer_rings rest) as [l'|] eqn:Hl;
      [|discriminate].
    injection H as <-.
    destruct p as [| | | |[|[| | | |pts|] ?]|]; try discriminate.
    simpl in Hr; injection Hr as <-; simpl.
    rewrite (IH _ _ eq_refl), app_assoc; reflexivity.
Qed.

Lemma generic_select_coordinates gkvs ty (c : Generic.value N) raw :
  Generic.lookup "type" gkvs = Some (Generic.VStr ty) ->
  Generic.lookup "coordinates" gkvs = Some c ->
  Generic.outer_ring_points ty c = Some raw ->
  Generic.select_coordinates (Generic.VObject gkvs)
  = Generic.Done (Some (Generic.VArray raw)).
Proof.
  intros Hty Hc Hpts.
  unfold Generic.select_coordinates, Generic.outer_ring_points in *.
  simpl; rewrite Hty; simpl.
  destruct (String.eqb ty "Polygon").
  - rewrite Hc; simpl.
    destruct c as [| | | |[|[| | | |pts|] ?]|]; try discriminate.
    injection Hpts as <-; reflexivity.
  - destruct (String.eqb ty "MultiPolygon"); [|discriminate].
    rewrite ?Hc; simpl.
    destruct c as [| | | |polygons|]; try discriminate; simpl.
    rewrite (generic_extend_outer_rings _ [] _ Hpts); reflexivity.
Qed.

(** On a non-empty list of positions the centre test of the source is the
    two means, then the comparison with the bounds; it raises when a mean
    overflows. *)
Lemma generic_center_in_bounds raw pts :
  Generic.positions raw = Some pts ->
  pts <> [] ->
  Generic.center_in_bounds A (Generic.VArray raw)
  = match Generic.mean A (map fst pts), Generic.mean A (map snd pts) with
    | Some center_lng, Some center_lat =>
        Generic.Done (Generic.within_bounds A center_lng center_lat)
    | _, _ => Generic.Raised Generic.OverflowError
    end.
Proof.
  intros Hpos Hne; unfold Generic.center_in_bounds, Generic.mean.
  assert (Hraw : Generic.truthy A (Generic.VArray raw) = true).
  { destruct raw; [|reflexivity]. simpl in Hpos; injection Hpos as <-.
    contradiction Hne; reflexivity. }
  rewrite Hraw; simpl.
  rewrite (generic_sum_at_positions 0 fst generic_position_index_0 _ _ _ Hpos).
  rewrite (generic_sum_at_positions 1 snd generic_position_index_1 _ _ _ Hpos).
  rewrite !length_map, (generic_positions_length _ _ Hpos).
  destruct (Generic.total A (map fst pts) (Generic.zero A)) as [s0|]; simpl;
    [|reflexivity].
  destruct (Generic.div_len A s0 (List.length pts)) as [lng|]; simpl;
    [|reflexivity].
  destruct (Generic.total A (map snd pts) (Generic.zero A)) as [s1|]; simpl;
    [|reflexivity].
  destruct (Generic.div_len A s1 (List.length pts)) as [lat|]; reflexivity.
Qed.

(** C6.  Whatever the arithmetic.  On a feature whose geometry carries a
    type and coordinates: any type other than Polygon and MultiPolygon
    gives [False]; when the outer ring point set (Polygon:
    [coordinates[0]]; MultiPolygon: all [coordinates[i][0]] put end to
    end) is a list of positions, an empty set gives [False], and otherwise
    the answer is [True] exactly when the two means are computed and
    south <= mean latitude <= north and west <= mean longitude <= east,
    with the comparison of the arithmetic, bounds included. *)
Theorem C6_filter_is_centre_within_bounds
  (fkvs gkvs : list (string * Generic.value N)) (t c : Generic.value N) :
  Generic.lookup "geometry" fkvs = Some (Generic.VObject gkvs) ->
  Generic.lookup "type" gkvs = Some t ->
  Generic.lookup "coordinates" gkvs = Some c ->
  (Generic.eq_str t "Polygon" = false ->
   Generic.eq_str t "MultiPolygon" = false ->
   Generic.is_in_travis_county A (Generic.VObject fkvs) = false)
  /\ (forall ty raw pts,
        t = Generic.VStr ty ->
        Generic.outer_ring_points ty c = Some raw ->
        Generic.positions raw = Some pts ->
        (pts = [] ->
         Generic.is_in_travis_county A (Generic.VObject fkvs) = false)
        /\ (pts <> [] ->
            (Generic.is_in_travis_county A (Generic.VObject fkvs) = true <->
             exists center_lng center_lat,
               Generic.mean A (map fst pts) = Some center_lng
               /\ Generic.mean A (map snd pts) = Some center_lat
               /\ (Generic.le A (Generic.south (Generic.TRAVIS_BOUNDS A))
                     center_lat = true
                   /\ Generic.le A center_lat
                        (Generic.north (Generic.TRAVIS_BOUNDS A)) = true)
               /\ (Generic.le A (Generic.west (Generic.TRAVIS_BOUNDS A))
                     center_lng = true
                   /\ Generic.le A center_lng
                        (Generic.east (Generic.TRAVIS_BOUNDS A)) = true)))).
Proof.
  intros Hg Hty Hc.
  assert (Hbody :
    Generic.is_in_travis_county_try A (Generic.VObject fkvs)
    = Generic.and_then (Generic.select_coordinates (Generic.VObject gkvs))
        (fun sel =>
           match sel with
           | None => Generic.Done false
           | Some coordinates => Generic.center_in_bounds A coordinates
           end)).
  { unfold Generic.is_in_travis_county_try; simpl.
    rewrite Hg; simpl; rewrite Hc; reflexivity. }
  unfold Generic.is_in_travis_county; rewrite Hbody; clear Hbody.
  split.
  - intros H1 H2; unfold Generic.select_coordinates; simpl.
    rewrite Hty; simpl; rewrite H1, H2; reflexivity.
  - intros ty raw pts -> Hraw Hpos.
    rewrite (generic_select_coordinates _ _ _ _ Hty Hc Hraw); simpl.
    split.
    + intros ->.
      destruct raw; [reflexivity|].
      apply generic_positions_length in Hpos; discriminate.
    + intros Hne.
      rewrite (generic_center_in_bounds _ _ Hpos Hne).
      destruct (Generic.mean A (map fst pts)) as [lng|];
        destruct (Generic.mean A (map snd pts)) as [lat|]; split;
        try discriminate;
        try (intros (x & y & H1 & H2 & _); discriminate).
      * intros H; exists lng, lat; unfold Generic.within_bounds in H.
        rewrite !andb_true_iff in H; tauto.
      * intros (x & y & H1 & H2 & H3 & H4).
        injection H1 as <-; injection H2 as <-.
        unfold Generic.within_bounds; rewrite !andb_true_iff; tauto.
Qed.

End GenericFacts.

(** ** The exact filter is the generic one at exact rationals *)

Lemma as_outcome_bind {X Y X' Y' : Type} (f : X -> X') (g : Y -> Y')
  (m : result X) (k : X -> result Y) (k' : X' -> Generic.outcome Y') :
  (forall x, k' (f x) = as_outcome g (k x)) ->
  Generic.and_then (as_outcome f m) k' = as_outcome g (bind m k).
Proof. intros H; destruct m; simpl; [apply H|reflexivity]. Qed.

Lemma exact_lookup key kvs :
  Generic.lookup key (value_fields kvs) = option_map as_value (Py.lookup key kvs).
Proof.
  induction kvs as [|[k v] kvs IH]; simpl; [reflexivity|].
  destruct (String.eqb k key); [reflexivity|exact IH].
Qed.

Lemma exact_eq_str v s : Generic.eq_str (as_value v) s = Py.eq_str v s.
Proof. destruct v; reflexivity. Qed.

Lemma exact_contains key v :
  Generic.contains key (as_value v) = as_outcome (fun b => b) (Py.contains key v).
Proof.
  destruct v as [| | | |xs|kvs]; simpl; try reflexivity.
  - f_equal; induction xs as [|x xs IH]; simpl; [reflexivity|].
    rewrite exact_eq_str, IH; reflexivity.
  - fold (value_fields kvs); rewrite exact_lookup.
    destruct (Py.lookup key kvs); reflexivity.
Qed.

Lemma exact_getitem v key :
  Generic.getitem (as_value v) key = as_outcome as_value (Py.getitem v key).
Proof.
  destruct v as [| | | |xs|kvs]; simpl; try reflexivity.
  fold (value_fields kvs); rewrite exact_lookup.
  destruct (Py.lookup key kvs); reflexivity.
Qed.

Lemma exact_index v i :
  Generic.index (as_value v) i = as_outcome as_value (Py.index v i).
Proof.
  destruct v as [| | |s|xs|kvs]; simpl; try reflexivity.
  - destruct (String.get i s); reflexivity.
  - rewrite nth_error_map; destruct (nth_error xs i); reflexivity.
Qed.

Lemma exact_iter v :
  Generic.iter (as_value v) = as_outcome (map as_value) (Py.iter v).
Proof.
  destruct v as [| | |s|xs|kvs]; simpl; try reflexivity;
    rewrite !map_map; reflexivity.
Qed.

Lemma exact_len v :
  Generic.len (as_value v) = as_outcome (fun n => n) (Py.len v).
Proof.
  destruct v as [| | |s|xs|kvs]; simpl; try reflexivity;
    rewrite length_map; reflexivity.
Qed.

Lemma exact_truthy v :
  Generic.truthy Generic.exact (as_value v) = Py.truthy v.
Proof. destruct v as [| | |s|[|]|[|]]; reflexivity. Qed.

Lemma exact_add acc x :
  Generic.add Generic.exact acc (as_value x)
  = as_outcome (fun q => q) (Py.add acc x).
Proof. destruct x; try reflexivity. Qed.

Lemma exact_sum_at i coords :
  forall acc,
    Generic.sum_at Generic.exact i (map as_value coords) acc
    = as_outcome (fun q => q) (Py.sum_at i coords acc).
Proof.
  induction coords as [|c coords IH]; intros acc; simpl; [reflexivity|].
  rewrite exact_index.
  apply (as_outcome_bind as_value (fun q => q)); intros x.
  rewrite exact_add.
  apply (as_outcome_bind (fun q => q) (fun q => q)); intros acc'.
  apply IH.
Qed.

Lemma exact_extend_outer_rings polygons :
  forall acc,
    Generic.extend_outer_rings (map as_value polygons) (map as_value acc)
    = as_outcome (map as_value) (extend_outer_rings polygons acc).
Proof.
  induction polygons as [|p polygons IH]; intros acc; simpl; [reflexivity|].
  rewrite exact_index.
  apply (as_outcome_bind as_value (map as_value)); intros ring.
  rewrite exact_iter.
  apply (as_outcome_bind (map as_value) (map as_value)); intros pts.
  rewrite <- map_app; apply IH.
Qed.

Lemma exact_select_coordinates g :
  Generic.select_coordinates (as_value g)
  = as_outcome (option_map as_value) (select_coordinates g).
Proof.
  unfold Generic.select_coordinates, select_coordinates.
  rewrite ?exact_getitem.
  apply (as_outcome_bind as_value (option_map as_value)); intros ty.
  rewrite ?exact_eq_str; destruct (Py.eq_str ty "Polygon").
  - rewrite ?exact_getitem.
    apply (as_outcome_bind as_value (option_map as_value)); intros c.
    rewrite ?exact_index.
    apply (as_outcome_bind as_value (option_map as_value)); intros ring.
    reflexivity.
  - rewrite ?exact_getitem.
    apply (as_outcome_bind as_value (option_map as_value)); intros ty'.
    rewrite ?exact_eq_str; destruct (Py.eq_str ty' "MultiPolygon");
      [|reflexivity].
    rewrite ?exact_getitem.
    apply (as_outcome_bind as_value (option_map as_value)); intros c.
    rewrite ?exact_iter.
    apply (as_outcome_bind (map as_value) (option_map as_value));
      intros polygons.
    pose proof (exact_extend_outer_rings polygons []) as E.
    change (map as_value []) with (@nil (Generic.value Q)) in E; rewrite E.
    apply (as_outcome_bind (map as_value) (option_map as_value)); intros pts.
    reflexivity.
Qed.

Lemma exact_center_in_bounds coordinates :
  Generic.center_in_bounds Generic.exact (as_value coordinates)
  = as_outcome (fun b => b) (center_in_bounds coordinates).
Proof.
  unfold Generic.center_in_bounds, center_in_bounds.
  rewrite ?exact_truthy; destruct (Py.truthy coordinates); simpl;
    [|reflexivity].
  rewrite ?exact_iter.
  apply (as_outcome_bind (map as_value) (fun b => b)); intros pts.
  rewrite ?exact_sum_at.
  apply (as_outcome_bind (fun q => q) (fun b => b)); intros sum_lng.
  rewrite ?exact_len.
  apply (as_outcome_bind (fun n => n) (fun b => b)); intros n.
  simpl Generic.overflow; simpl Generic.and_then.
  apply (as_outcome_bind (map as_value) (fun b => b)); intros pts'.
  rewrite ?exact_sum_at.
  apply (as_outcome_bind (fun q => q) (fun b => b)); intros sum_lat.
  apply (as_outcome_bind (fun n => n) (fun b => b)); intros n'.
  reflexivity.
Qed.

(** The filter of the extractor model is the generic filter with exact
    rational arithmetic. *)
Lemma exact_filter_agrees (feature : json) :
  Generic.is_in_travis_county Generic.exact (as_value feature)
  = is_in_travis_county feature.
Proof.
  unfold Generic.is_in_travis_county, is_in_travis_county.
  assert (H : Generic.is_in_travis_county_try Generic.exact (as_value feature)
              = as_outcome (fun b => b) (is_in_travis_county_try feature)).
  { unfold Generic.is_in_travis_county_try, is_in_travis_county_try.
    rewrite ?exact_contains.
    apply (as_outcome_bind (fun b => b) (fun b => b)); intros has_geometry.
    destruct has_geometry; cbn [negb]; [|reflexivity].
    rewrite ?exact_getitem.
    apply (as_outcome_bind as_value (fun b => b)); intros g.
    rewrite ?exact_contains.
    apply (as_outcome_bind (fun b => b) (fun b => b)); intros has_coordinates.
    destruct has_coordinates; cbn [negb]; [|reflexivity].
    rewrite ?exact_getitem.
    apply (as_outcome_bind as_value (fun b => b)); intros geometry.
    rewrite ?exact_select_coordinates.
    apply (as_outcome_bind (option_map as_value) (fun b => b)); intros sel.
    destruct sel as [coordinates|]; cbn [option_map]; [|reflexivity].
    apply exact_center_in_bounds. }
  rewrite H; destruct (is_in_travis_county_try feature); reflexivity.
Qed.

(** The Polygon of the specification's example, its numbers doubles. *)
Lemma C6_filter_is_centre_within_bounds_witness :
  (Generic.lookup "geometry"
     (Generic.polygon_fields_of Generic.binary64 austin_ring)
   = Some (Generic.VObject
             (Generic.polygon_geometry_of Generic.binary64 austin_ring))
   /\ Generic.lookup "type"
        (Generic.polygon_geometry_of Generic.binary64 austin_ring)
      = Some (Generic.VStr "Polygon")
   /\ Generic.lookup "coordinates"
        (Generic.polygon_geometry_of Generic.binary64 austin_ring)
      = Some (Generic.VArray
                [Generic.VArray
                   (Generic.ring_of Generic.binary64 austin_ring)]))
  /\ ((Generic.eq_str (@Generic.VStr PrimFloat.float "Polygon") "Polygon"
       = false ->
       Generic.eq_str (@Generic.VStr PrimFloat.float "Polygon") "MultiPolygon"
       = false ->
       Generic.is_in_travis_county Generic.binary64
         (Generic.polygon_of Generic.binary64 austin_ring)
       = false)
      /\ (forall ty raw pts,
            @Generic.VStr PrimFloat.float "Polygon" = Generic.VStr ty ->
            Generic.outer_ring_points ty
              (Generic.VArray
                 [Generic.VArray
                    (Generic.ring_of Generic.binary64 austin_ring)])
            = Some raw ->
            Generic.positions raw = Some pts ->
            (pts = [] ->
             Generic.is_in_travis_county Generic.binary64
               (Generic.polygon_of Generic.binary64 austin_ring)
             = false)
            /\ (pts <> [] ->
                (Generic.is_in_travis_county Generic.binary64
                   (Generic.polygon_of Generic.binary64 austin_ring)
                 = true <->
                 exists center_lng center_lat,
                   Generic.mean Generic.binary64 (map fst pts)
                   = Some center_lng
                   /\ Generic.mean Generic.binary64 (map snd pts)
                      = Some center_lat
                   /\ (Generic.le Generic.binary64
                         (Generic.south
                            (Generic.TRAVIS_BOUNDS Generic.binary64))
                         center_lat = true
                       /\ Generic.le Generic.binary64 center_lat
                            (Generic.north
                               (Generic.TRAVIS_BOUNDS Generic.binary64))
                          = true)
                   /\ (Generic.le Generic.binary64
                         (Generic.west
                            (Generic.TRAVIS_BOUNDS Generic.binary64))
                         center_lng = true
                       /\ Generic.le Generic.binary64 center_lng
                            (Generic.east
                               (Generic.TRAVIS_BOUNDS Generic.binary64))
                          = true))))).
Proof.
  split; [repeat split|].
  exact (C6_filter_is_centre_within_bounds PrimFloat.float Generic.binary64
           (Generic.polygon_fields_of Generic.binary64 austin_ring)
           (Generic.polygon_geometry_of Generic.binary64 austin_ring)
           (Generic.VStr "Polygon")
           (Generic.VArray
              [Generic.VArray (Generic.ring_of Generic.binary64 austin_ring)])
           eq_refl eq_refl eq_refl).
Defined.

(** A Polygon whose first longitude is the boolean [true] is malformed,
    and the filter accepts it: [true] counts as 1 in the sum, and the mean
    of 1 and -196.1 is -97.55. *)
Lemma C5_boolean_coordinate_is_accepted :
  RefJson.loads boolean_coordinate_text = Some boolean_coordinate
  /\ positions
       [JArray [JBool true; JNum (303 # 10)];
        JArray [JNum (- (1961 # 10)); JNum (303 # 10)]] = None
  /\ is_in_travis_county_try boolean_coordinate = Ok true
  /\ is_in_travis_county boolean_coordinate = true.
Proof. repeat split; vm_compute; reflexivity. Qed.

(** Two broken objects between the same neighbours.  One whose second line
    begins with a closing bracket ends the scan: the neighbour after it is
    left unread.  One that lacks its closing braces is dropped without a
    diagnostic. *)
Lemma C8_broken_object_outside_the_layout :
  (let r := scan RefJson.loads 5000 live_state
              (austin_lines ++ bracket_broken_lines ++ pflugerville_lines
               ++ closing_lines) in
   RefJson.loads (strip_trailing_comma (feature_text bracket_broken_lines))
   = None
   /\ travis_buildings (fst r) = [austin]
   /\ total_features (fst r) = 1%Z
   /\ snd r = pflugerville_lines ++ closing_lines)
  /\ (let r := scan RefJson.loads 5000 live_state
                 (austin_lines ++ unbalanced_lines ++ pflugerville_lines
                  ++ closing_lines) in
      RefJson.loads (strip_trailing_comma (feature_text unbalanced_lines))
      = None
      /\ travis_buildings (fst r) = [austin; pflugerville]
      /\ printed (fst r) = []).
Proof. cbv zeta; repeat split; vm_compute; reflexivity. Qed.

(** ** The output on a file laid out object by object *)

Lemma feature_lines_length (chunks : list (list string)) :
  Forall (fun lines => feature_lines lines = true) chunks ->
  (List.length chunks <= List.length (concat chunks))%nat.
Proof.
  induction 1 as [|lines chunks Hl _ IH]; simpl; [lia|].
  rewrite length_app; destruct lines; [discriminate|simpl; lia].
Qed.

(** Lines that open with a bracket are passed over by the array scan. *)
Lemma scan_opening_lines (loads : string -> option json) (max : Z)
  (opening : list string) :
  forall st rest,
    in_features st = true ->
    Forall (fun l => Str.contains features_key (Str.strip l) = false
                     /\ Str.startswith "[" (Str.strip l) = true) opening ->
    scan loads max st (opening ++ rest) = scan loads max st rest.
Proof.
  induction opening as [|l opening IH]; intros st rest Hin Hall;
    [reflexivity|].
  inversion Hall as [|? ? [Hkey Hopen] Hrest]; subst.
  simpl app; rewrite scan_cons; unfold step.
  rewrite Hkey, Hin, Hopen; unfold resume.
  apply IH; assumption.
Qed.

(** The run on a file laid out object by object, when the cap is above the
    number of objects. *)
Lemma layout_kept
  (loads : string -> option json) (max : Z)
  (first seek_line key_line close_line : string)
  (header opening : list string)
  (chunks : list (list string)) (vs : list json) (tail : list string) :
  Str.startswith collection_tag (Str.strip first) = true ->
  Str.contains features_key first = false ->
  Forall (fun l => Str.nonempty l = true
                   /\ Str.contains features_key l = false) header ->
  Str.contains features_key seek_line = true ->
  Str.contains features_key (Str.strip key_line) = true ->
  Forall (fun l => Str.contains features_key (Str.strip l) = false
                   /\ Str.startswith "[" (Str.strip l) = true) opening ->
  Str.contains features_key (Str.strip close_line) = false ->
  Str.startswith "]" (Str.strip close_line) = true ->
  Forall2
    (fun lines v =>
       feature_lines lines = true
       /\ loads (strip_trailing_comma (feature_text lines)) = Some v)
    chunks vs ->
  (Z.of_nat (List.length vs) < max)%Z ->
  travis_buildings
    (final
       (process_texas_geojson loads max
          (first :: header ++ seek_line :: key_line
           :: opening ++ concat chunks ++ close_line :: tail)))
  = filter is_in_travis_county vs.
Proof.
  intros Htag Hk1 Hheader Hk2 Hk3 Hopening Hk5 Hclose Hall Hcap.
  assert (Hseek :
    seek_features first
      (header ++ seek_line :: key_line
       :: opening ++ concat chunks ++ close_line :: tail)
    = (seek_line,
       key_line :: opening ++ concat chunks ++ close_line :: tail)).
  { rewrite (seek_features_skips first header _ (tag_nonempty _ Htag)
               Hk1 Hheader).
    simpl; rewrite (tag_nonempty _ Htag), Hk1; simpl.
    rewrite Hk2, andb_false_r; reflexivity. }
  assert (Hne : Str.nonempty seek_line = true).
  { destruct seek_line; [discriminate|reflexivity]. }
  rewrite (process_scan loads max _ _ _ _ Htag Hseek Hne); cbv zeta.
  rewrite final_of_scan.
  destruct (scan_documented_features loads max chunks vs live_state
              (close_line :: tail) Hall eq_refl)
    as (st' & Hscan & Hin' & Hkept & _); [simpl; lia|].
  rewrite scan_cons; unfold step at 1; rewrite Hk3; unfold resume at 1.
  change (set_in_features initial_state) with live_state.
  rewrite (scan_opening_lines loads max opening live_state _ eq_refl
             Hopening).
  rewrite Hscan, scan_cons; unfold step.
  rewrite Hk5, Hin', (startswith_close _ Hclose), Hclose; simpl.
  exact Hkept.
Qed.

Lemma output_is_collection_of_kept
  (loads : string -> option json) (max : Z) (f : list string) (doc : json) :
  output_file (process_texas_geojson loads max f) = Some doc ->
  doc = JObject
          [("type", JStr "FeatureCollection");
           ("features",
            JArray
              (travis_buildings (final (process_texas_geojson loads max f))))].
Proof.
  destruct (process_cases loads f)
    as [Herr|(first & f1 & line & f2 & -> & Htag & Hseek & Hne)].
  - destruct (Herr max) as [_ ->]; discriminate.
  - rewrite (process_scan loads max _ _ _ _ Htag Hseek Hne); cbv zeta.
    destruct (found_count (fst (scan loads max initial_state f2)) =? 0)%Z;
      simpl; intros H; [discriminate|].
    injection H as <-; reflexivity.
Qed.

(** C4, for a file whose objects stand on lines of their own.  On a file
    laid out as: the tag line; lines without the features key; a line with
    the features key (on which the seek stops); a second line with the key
    (which starts the array scan); lines that open with a bracket, if any;
    objects each on its own lines and each decoding; a line that closes the
    array; and anything after it: the buildings kept are the in-region ones
    among the decoded objects of the file, in file order, as decoded, cut
    at the cap (a cap below 1 cuts at 1); and a document that is written
    is the feature collection of exactly these. *)
Theorem C4_layout_output_is_in_region_prefix
  (loads : string -> option json) (max : Z)
  (first seek_line key_line close_line : string)
  (header opening : list string)
  (chunks : list (list string)) (vs : list json) (tail : list string) :
  Str.startswith collection_tag (Str.strip first) = true ->
  Str.contains features_key first = false ->
  Forall (fun l => Str.nonempty l = true
                   /\ Str.contains features_key l = false) header ->
  Str.contains features_key seek_line = true ->
  Str.contains features_key (Str.strip key_line) = true ->
  Forall (fun l => Str.contains features_key (Str.strip l) = false
                   /\ Str.startswith "[" (Str.strip l) = true) opening ->
  Str.contains features_key (Str.strip close_line) = false ->
  Str.startswith "]" (Str.strip close_line) = true ->
  Forall2
    (fun lines v =>
       feature_lines lines = true
       /\ loads (strip_trailing_comma (feature_text lines)) = Some v)
    chunks vs ->
  let r :=
    process_texas_geojson loads max
      (first :: header ++ seek_line :: key_line
       :: opening ++ concat chunks ++ close_line :: tail) in
  let in_region := filter is_in_travis_county vs in
  travis_buildings (final r) = firstn (Z.to_nat (Z.max 1 max)) in_region
  /\ (forall doc,
        output_file r = Some doc ->
        doc = JObject
                [("type", JStr "FeatureCollection");
                 ("features",
                  JArray (firstn (Z.to_nat (Z.max 1 max)) in_region))]).
Proof.
  intros Htag Hk1 Hheader Hk2 Hk3 Hopening Hk5 Hclose Hall r in_region.
  assert (Hkept : travis_buildings (final r)
                  = firstn (Z.to_nat (Z.max 1 max)) in_region).
  { subst r in_region; rewrite process_capped_prefix; f_equal.
    unfold in_region_features.
    apply (layout_kept loads _ first seek_line key_line close_line
             header opening chunks vs tail Htag Hk1 Hheader Hk2 Hk3
             Hopening Hk5 Hclose Hall).
    assert (Hlen : (List.length chunks <= List.length (concat chunks))%nat).
    { apply feature_lines_length.
      clear -Hall; induction Hall as [|? ? ? ? [H _] _ IH]; constructor;
        assumption. }
    pose proof (Forall2_length Hall) as Hsame.
    unfold out_of_reach; simpl List.length.
    rewrite !length_app; simpl List.length; rewrite !length_app; lia. }
  split; [exact Hkept|].
  intros doc Hdoc; rewrite <- Hkept.
  apply (output_is_collection_of_kept loads max _ doc Hdoc).
Qed.

(** A file with a header line, three objects of which the first and the
    third are in region, and a cap of 1. *)
Lemma C4_layout_output_is_in_region_prefix_witness :
  (Str.startswith collection_tag (Str.strip tag_line) = true
   /\ Str.contains features_key tag_line = false
   /\ Forall (fun l => Str.nonempty l = true
                       /\ Str.contains features_key l = false) [crs_line]
   /\ Str.contains features_key name_line = true
   /\ Str.contains features_key (Str.strip features_line) = true
   /\ Forall (fun l => Str.contains features_key (Str.strip l) = false
                       /\ Str.startswith "[" (Str.strip l) = true)
        [open_bracket_line]
   /\ Str.contains features_key (Str.strip close_bracket_line) = false
   /\ Str.startswith "]" (Str.strip close_bracket_line) = true
   /\ Forall2
        (fun lines v =>
           feature_lines lines = true
           /\ RefJson.loads (strip_trailing_comma (feature_text lines))
              = Some v)
        [austin_lines; houston_lines; pflugerville_lines]
        [austin; houston; pflugerville])
  /\ (let r :=
        process_texas_geojson RefJson.loads 1
          (tag_line :: [crs_line] ++ name_line :: features_line
           :: [open_bracket_line]
              ++ concat [austin_lines; houston_lines; pflugerville_lines]
              ++ close_bracket_line :: [close_brace_line]) in
      let in_region :=
        filter is_in_travis_county [austin; houston; pflugerville] in
      travis_buildings (final r) = firstn (Z.to_nat (Z.max 1 1)) in_region
      /\ (forall doc,
            output_file r = Some doc ->
            doc = JObject
                    [("type", JStr "FeatureCollection");
                     ("features",
                      JArray (firstn (Z.to_nat (Z.max 1 1)) in_region))])).
Proof.
  assert (H3 : Forall (fun l => Str.nonempty l = true
                                /\ Str.contains features_key l = false)
                 [crs_line]).
  { repeat constructor. }
  assert (H6 : Forall (fun l => Str.contains features_key (Str.strip l) = false
                                /\ Str.startswith "[" (Str.strip l) = true)
                 [open_bracket_line]).
  { repeat constructor. }
  assert (H9 : Forall2
                 (fun lines v =>
                    feature_lines lines = true
                    /\ RefJson.loads
                         (strip_trailing_comma (feature_text lines))
                       = Some v)
                 [austin_lines; houston_lines; pflugerville_lines]
                 [austin; houston; pflugerville]).
  { repeat constructor; vm_compute; reflexivity. }
  split; [repeat split; solve [exact H3 | exact H6 | exact H9 | reflexivity]|].
  exact (C4_layout_output_is_in_region_prefix RefJson.loads 1
           tag_line name_line features_line close_bracket_line
           [crs_line] [open_bracket_line]
           [austin_lines; houston_lines; pflugerville_lines]
           [austin; houston; pflugerville] [close_brace_line]
           eq_refl eq_refl H3 eq_refl eq_refl H6 eq_refl eq_refl H9).
Defined.

Example layout_output_under_cap_1 :
  firstn (Z.to_nat (Z.max 1 1))
    (filter is_in_travis_county [austin; houston; pflugerville])
  = [austin]
  /\ output_file (process_texas_geojson RefJson.loads 1 two_key_file)
     = Some (JObject [("type", JStr "FeatureCollection");
                      ("features", JArray [austin])]).
Proof. split; vm_compute; reflexivity. Qed.

(** A feature collection whose one feature, in region, is written on
    three lines, the second of which begins with an opening bracket.  The
    file as a whole decodes to a collection of that feature; the extractor
    skips the second line and writes a feature the input does not hold. *)
Lemma C4_skipped_line_alters_feature :
  let r := process_texas_geojson RefJson.loads 5000 nested_file in
  option_map features_of (RefJson.loads (file_text nested_file))
  = Some [nested_feature]
  /\ is_in_travis_county nested_feature = true
  /\ output_file r
     = Some (JObject [("type", JStr "FeatureCollection");
                      ("features", JArray [flattened_feature])])
  /\ ~ In flattened_feature [nested_feature].
Proof.
  cbv zeta; repeat split; try (vm_compute; reflexivity).
  intros [H|[]]; vm_compute in H; discriminate H.
Qed.

(** X2.  The program decides on its counter whether to write.  The counter
    is the length of the list of kept buildings all along the scan, so a run
    that kept no building reports a count of zero and writes no output
    file. *)
Theorem no_output_without_kept
  (loads : string -> option json) (max : Z) (f : list string) :
  travis_buildings (final (process_texas_geojson loads max f)) = [] ->
  found_count (final (process_texas_geojson loads max f)) = 0%Z
  /\ output_file (process_texas_geojson loads max f) = None.
Proof.
  destruct (process_invariant loads max f) as [Hcnt _].
  unfold counted in Hcnt; intros Hnil.
  rewrite Hnil in Hcnt; simpl in Hcnt.
  split; [exact Hcnt|].
  revert Hcnt.
  destruct (process_cases loads f)
    as [Herr|(first & f1 & line & f2 & -> & Htag & Hseek & Hne)].
  - intros _; apply Herr.
  - rewrite (process_scan loads max _ _ _ _ Htag Hseek Hne); cbv zeta.
    rewrite final_of_scan; intros Hcnt.
    rewrite Hcnt; reflexivity.
Qed.

(** A file whose only object is the Houston feature. *)
Lemma no_output_without_kept_witness :
  travis_buildings
    (final (process_texas_geojson RefJson.loads 5000 houston_only_file)) = []
  /\ found_count
       (final (process_texas_geojson RefJson.loads 5000 houston_only_file))
     = 0%Z
  /\ output_file (process_texas_geojson RefJson.loads 5000 houston_only_file)
     = None.
Proof.
  assert (H : travis_buildings
                (final (process_texas_geojson RefJson.loads 5000
                          houston_only_file)) = []).
  { vm_compute; reflexivity. }
  split; [exact H|].
  exact (no_output_without_kept RefJson.loads 5000 houston_only_file H).
Defined.

(** The arithmetic decides on the boundary.  The three longitudes -96.6,
    -97.4 and -98.2 have the east bound -97.4 for exact mean, and exact
    arithmetic accepts the feature; with doubles the mean comes out above
    the bound (and below -97.3999) and the feature is rejected. *)
Example boundary_depends_on_arithmetic :
  Generic.is_in_travis_county Generic.exact
    (Generic.polygon_of Generic.exact boundary_ring) = true
  /\ Generic.is_in_travis_county Generic.binary64
       (Generic.polygon_of Generic.binary64 boundary_ring) = false
  /\ (exists center_lng,
        Generic.mean Generic.binary64
          (map (fun xy => Generic.literal Generic.binary64 (fst xy))
             boundary_ring) = Some center_lng
        /\ PrimFloat.ltb
             (Generic.east (Generic.TRAVIS_BOUNDS Generic.binary64))
             center_lng = true
        /\ PrimFloat.ltb center_lng
             (Generic.literal Generic.binary64 (- (973999 # 10000)))
           = true)
  /\ Generic.is_in_travis_county Generic.binary64
       (Generic.polygon_of Generic.binary64 austin_ring) = true.
Proof.
  split; [vm_compute; reflexivity|].
  split; [vm_compute; reflexivity|].
  split; [|vm_compute; reflexivity].
  eexists; split; [vm_compute; reflexivity|].
  split; vm_compute; reflexivity.
Qed.
